(** * Cover Printer: grid layout, image fit and settings persistence

    A shallow embedding of [src/app/app.component.ts] (class [AppComponent])
    and of [StorageService] (services/storage.service.ts), followed by the
    properties the specification states about them.

    Numbers.  A JavaScript number is modelled by [num]: an exact rational,
    or one of the three IEEE special values.  Arithmetic on finite values is
    exact (no rounding) and zero carries no sign; everything else follows
    the IEEE rules the source relies on: division by zero gives an infinity
    or NaN, NaN propagates, and every comparison with NaN is false. *)

From Stdlib Require Import QArith Qround ZArith Lia Lqa List.
From Stdlib Require Qcanon.
From stdpp Require Import base option gmap strings pretty.

Local Open Scope Q_scope.

(** ** JavaScript numbers *)

Module JsNum.

Inductive num : Type :=
  | Fin (q : Q)
  | PInf
  | NInf
  | NaN.

Definition of_Z (z : Z) : num := Fin (inject_Z z).

Definition isFinite (a : num) : bool :=
  match a with Fin _ => true | _ => false end.

Definition isNaN (a : num) : bool :=
  match a with NaN => true | _ => false end.

(** The sign of a rational, as a [comparison] against zero. *)
Definition sgn (q : Q) : comparison := q ?= 0.

(** An infinity of the given sign; NaN for the sign of zero. *)
Definition inf_of (s : comparison) : num :=
  match s with Gt => PInf | Lt => NInf | Eq => NaN end.

Definition sign_of (a : num) : option comparison :=
  match a with
  | Fin q => Some (sgn q)
  | PInf => Some Gt
  | NInf => Some Lt
  | NaN => None
  end.

Definition neg (a : num) : num :=
  match a with
  | Fin q => Fin (- q)
  | PInf => NInf
  | NInf => PInf
  | NaN => NaN
  end.

Definition add (a b : num) : num :=
  match a, b with
  | Fin p, Fin q => Fin (p + q)
  | NaN, _ | _, NaN => NaN
  | PInf, NInf | NInf, PInf => NaN
  | PInf, _ | _, PInf => PInf
  | NInf, _ | _, NInf => NInf
  end.

Definition sub (a b : num) : num := add a (neg b).

Definition mul_sign (s t : comparison) : comparison :=
  match s, t with
  | Eq, _ | _, Eq => Eq
  | Gt, Gt | Lt, Lt => Gt
  | Gt, Lt | Lt, Gt => Lt
  end.

Definition mul (a b : num) : num :=
  match a, b with
  | Fin p, Fin q => Fin (p * q)
  | _, _ =>
      match sign_of a, sign_of b with
      | Some s, Some t => inf_of (mul_sign s t)
      | _, _ => NaN
      end
  end.

(** [x / 0] is an infinity with the sign of [x], and [0 / 0] is NaN;
    a finite value over an infinity is zero. *)
Definition div (a b : num) : num :=
  match a, b with
  | NaN, _ | _, NaN => NaN
  | Fin p, Fin q => if Qeq_bool q 0 then inf_of (sgn p) else Fin (p / q)
  | Fin _, _ => Fin 0
  | _, Fin q => inf_of (mul_sign (default Eq (sign_of a))
                                 (match sgn q with Lt => Lt | _ => Gt end))
  | _, _ => NaN
  end.

(** [Math.floor]. *)
Definition floor (a : num) : num :=
  match a with
  | Fin q => of_Z (Qfloor q)
  | _ => a
  end.

(** Rounding towards zero, used by the remainder. *)
Definition Qtrunc (q : Q) : Z :=
  if Qle_bool 0 q then Qfloor q else Qceiling q.

(** The [%] operator: the remainder has the sign of the dividend.  The
    result is kept in lowest terms. *)
Definition rem (a b : num) : num :=
  match a, b with
  | Fin p, Fin q =>
      if Qeq_bool q 0 then NaN
      else Fin (Qred (p - q * inject_Z (Qtrunc (p / q))))
  | Fin p, (PInf | NInf) => Fin p
  | _, _ => NaN
  end.

(** Comparisons: [<], [<=], [>]; all false when an operand is NaN. *)
Definition lt (a b : num) : bool :=
  match a, b with
  | NaN, _ | _, NaN => false
  | Fin p, Fin q => negb (Qle_bool q p)
  | _, NInf => false
  | NInf, _ => true
  | PInf, _ => false
  | _, PInf => true
  end.

Definition le (a b : num) : bool :=
  match a, b with
  | NaN, _ | _, NaN => false
  | Fin p, Fin q => Qle_bool p q
  | NInf, _ => true
  | _, PInf => true
  | _, NInf => false
  | PInf, _ => false
  end.

Definition gt (a b : num) : bool := lt b a.

(** [Math.max] and [Math.min] of two arguments. *)
Definition max (a b : num) : num :=
  match a, b with
  | NaN, _ | _, NaN => NaN
  | _, _ => if lt a b then b else a
  end.

Definition min (a b : num) : num :=
  match a, b with
  | NaN, _ | _, NaN => NaN
  | _, _ => if lt b a then b else a
  end.

(** Truthiness of a number: zero and NaN are falsy. *)
Definition truthy (a : num) : bool :=
  match a with
  | Fin q => negb (Qeq_bool q 0)
  | NaN => false
  | _ => true
  end.

(** Equality of the denoted values: rationals up to [Qeq]. *)
Definition same (a b : num) : Prop :=
  match a, b with
  | Fin p, Fin q => p == q
  | PInf, PInf | NInf, NInf | NaN, NaN => True
  | _, _ => False
  end.

(** [===] on two numbers: NaN is equal to nothing, itself included. *)
Definition strictEq (a b : num) : bool :=
  match a, b with
  | Fin p, Fin q => Qeq_bool p q
  | PInf, PInf | NInf, NInf => true
  | _, _ => false
  end.

End JsNum.

Import JsNum.

Declare Scope num_scope.
Delimit Scope num_scope with num.
Bind Scope num_scope with num.
Infix "+" := add : num_scope.
Infix "-" := sub : num_scope.
Infix "*" := mul : num_scope.
Infix "/" := div : num_scope.
Infix "<?" := lt : num_scope.
Infix "<=?" := le : num_scope.
Infix ">?" := gt : num_scope.
Infix "≃" := same (at level 70) : num_scope.

Local Open Scope string_scope.

(** ** JavaScript values and objects

    A plain object is a finite map from property names to values.  The type
    covers what [JSON.parse] can produce and what [saveSettings] builds. *)

#[warnings="-register-all"]
Inductive jsval : Type :=
  | JNull
  | JBool (b : bool)
  | JNum (n : num)
  | JStr (s : string)
  | JArr (xs : list jsval)
  | JObj (props : gmap string jsval).

(** The own enumerable properties that an object spread [...v] copies: the
    properties of an object, the indices of an array or of a string, and
    nothing for [null], booleans and numbers. *)
Definition ownProps (v : jsval) : gmap string jsval :=
  match v with
  | JObj props => props
  | JArr xs => list_to_map (imap (λ i x, (pretty i, x)) xs)
  | JStr s =>
      list_to_map
        (imap (λ i c, (pretty i, JStr (String c EmptyString)))
              (String.list_ascii_of_string s))
  | JNull | JBool _ | JNum _ => ∅
  end.

(** [{ ...a, ...b }]: the properties of [b] win over those of [a]. *)
Definition spread2 (a b : gmap string jsval) : gmap string jsval := b ∪ a.

(** ** The browser's [localStorage]

    A key-value store of strings.  Access may be refused by the browser
    (reads when storage is disabled, writes also when the quota is
    exhausted); a refused call throws, which is [None] here. *)

Record LocalStorage : Type := {
  items : gmap string string;
  readable : bool;
  writable : bool
}.

Definition getItem (ls : LocalStorage) (key : string) : option (option string) :=
  if readable ls then Some (items ls !! key) else None.

Definition setItem (ls : LocalStorage) (key value : string) : option LocalStorage :=
  if writable ls
  then Some {| items := <[key := value]> (items ls);
               readable := readable ls; writable := writable ls |}
  else None.

(** [removeItem] is not subject to the quota: it is refused only when the
    storage is disabled. *)
Definition removeItem (ls : LocalStorage) (key : string) : option LocalStorage :=
  if readable ls
  then Some {| items := delete key (items ls);
               readable := readable ls; writable := writable ls |}
  else None.

(** ** StorageService (services/storage.service.ts)

    [console.warn] in the [catch] blocks leaves no trace in the state and is
    not modelled. *)

Module StorageService.

Definition SETTINGS_KEY : string := "teddycloud-cover-printer-settings".
Definition DARK_MODE_KEY : string := "teddycloud-cover-printer-dark-mode".

(** The names of the [AppSettings] fields. *)
Definition settingKeys : list string :=
  [ "selectedPaperSizeIndex"; "pictureWidth"; "pictureHeight"; "margins";
    "spacing"; "allowWhitespace"; "showCropMarks"; "isDarkMode";
    "placeholderShape" ].

Definition DEFAULT_SETTINGS : gmap string jsval :=
  list_to_map
    [ ("selectedPaperSizeIndex", JNum (Fin 0));
      ("pictureWidth", JNum (Fin 44));
      ("pictureHeight", JNum (Fin 44));
      ("margins", JNum (Fin 4));
      ("spacing", JNum (Fin 2));
      ("allowWhitespace", JBool false);
      ("showCropMarks", JBool true);
      ("isDarkMode", JBool false);
      ("placeholderShape", JStr "rectangular") ].

Section WithJSON.

(** The host's [JSON.parse] ([None] for a thrown [SyntaxError]) and
    [JSON.stringify]. *)
Variable JSON_parse : string → option jsval.
Variable JSON_stringify : jsval → string.

Definition loadSettings (ls : LocalStorage) : gmap string jsval :=
  match getItem ls SETTINGS_KEY with
  | Some (Some stored) =>
      if bool_decide (stored = "") then spread2 DEFAULT_SETTINGS ∅
      else
        match JSON_parse stored with
        | Some parsed => spread2 DEFAULT_SETTINGS (ownProps parsed)
        | None => spread2 DEFAULT_SETTINGS ∅
        end
  | Some None | None => spread2 DEFAULT_SETTINGS ∅
  end.

Definition saveSettings (ls : LocalStorage) (settings : gmap string jsval)
  : LocalStorage :=
  match setItem ls SETTINGS_KEY (JSON_stringify (JObj settings)) with
  | Some ls' => ls'
  | None => ls
  end.

End WithJSON.

Definition getDarkMode (ls : LocalStorage) : bool :=
  match getItem ls DARK_MODE_KEY with
  | Some (Some stored) => bool_decide (stored = "true")
  | Some None | None =>
      match DEFAULT_SETTINGS !! "isDarkMode" with
      | Some (JBool b) => b
      | _ => false
      end
  end.

Definition setDarkMode (ls : LocalStorage) (isDarkMode : bool) : LocalStorage :=
  match setItem ls DARK_MODE_KEY (if isDarkMode then "true" else "false") with
  | Some ls' => ls'
  | None => ls
  end.

(** The second removal is skipped when the first one throws. *)
Definition clearStorage (ls : LocalStorage) : LocalStorage :=
  match removeItem ls SETTINGS_KEY with
  | Some ls1 =>
      match removeItem ls1 DARK_MODE_KEY with
      | Some ls2 => ls2
      | None => ls1
      end
  | None => ls
  end.

End StorageService.

(** ** Data of the component (app.component.ts) *)

Inductive Shape : Type := rectangular | round.

Definition Shape_eqb (a b : Shape) : bool :=
  match a, b with
  | rectangular, rectangular | round, round => true
  | _, _ => false
  end.

Definition Shape_name (s : Shape) : string :=
  match s with rectangular => "rectangular" | round => "round" end.

Module PaperSize.
Record t : Type := { label : string; width : num; height : num }.
End PaperSize.

(** [isDragOver] and [isDraggingImage] are optional in the source; an
    absent flag is falsy and is [false] here. *)
Module PlaceholderState.
Record t : Type := {
  id : num;
  imageData : option string;
  offsetX : num;
  offsetY : num;
  scale : num;
  imageWidth : num;
  imageHeight : num;
  left : num;
  top : num;
  isDragOver : bool;
  isDraggingImage : bool
}.

(** Assignment to the pan/zoom fields of one placeholder object. *)
Definition setTransform (p : t) (ox oy sc : num) : t :=
  {| id := id p; imageData := imageData p;
     offsetX := ox; offsetY := oy; scale := sc;
     imageWidth := imageWidth p; imageHeight := imageHeight p;
     left := left p; top := top p;
     isDragOver := isDragOver p; isDraggingImage := isDraggingImage p |}.

(** [!placeholder.imageData] is false exactly for a non-empty string. *)
Definition hasImage (p : t) : bool :=
  match imageData p with
  | Some s => negb (bool_decide (s = ""))
  | None => false
  end.
End PlaceholderState.

Module DragState.
Record t : Type := {
  active : bool;
  placeholderId : option num;
  startX : num;
  startY : num;
  startOffsetX : num;
  startOffsetY : num
}.
End DragState.

(** What the drag handlers read from a mouse event. *)
Module MouseEvent.
Record t : Type := { clientX : num; clientY : num }.
End MouseEvent.

(** A wheel event with the bounding rectangle of its current target. *)
Module WheelEvent.
Record t : Type := {
  clientX : num;
  clientY : num;
  deltaY : num;
  rectLeft : num;
  rectTop : num
}.
End WheelEvent.

Inductive Axis : Type := x | y.

(** [Array(n).fill(null).map((_, index) => ...)] runs over the indices
    [0 .. n-1]; [Array(n)] throws a [RangeError] ([None]) unless [n] is an
    integer between 0 and 2^32 - 1. *)
Definition Array_indices (n : num) : option (list Z) :=
  match n with
  | Fin q =>
      if Qeq_bool (inject_Z (Qfloor q)) q
         && Qle_bool 0 q && Qle_bool q (inject_Z (2 ^ 32 - 1))
      then Some (map Z.of_nat (seq 0 (Z.to_nat (Qfloor q))))
      else None
  | _ => None
  end.

(** How a method call ends: normally, or with a [RangeError] thrown, in
    either case with the component as the call left it. *)
Inductive completion (S : Type) : Type :=
  | Normal (st : S)
  | RangeError (st : S).
Arguments Normal {S} st.
Arguments RangeError {S} st.

Definition final {S : Type} (c : completion S) : S :=
  match c with Normal st | RangeError st => st end.

(** [list.find(test)] followed by assignments to the object found: the first
    element that passes [test] is changed in place, and nothing happens when
    there is none. *)
Fixpoint updateFirst {A : Type} (test : A → bool) (change : A → A)
    (l : list A) : list A :=
  match l with
  | [] => []
  | a :: rest =>
      if test a then change a :: rest else a :: updateFirst test change rest
  end.

(** ** class AppComponent

    The fields the modelled methods read or write.  [storage] is the
    browser storage that [storageService] works on; [isDarkMode] is the
    current value of the signal. *)

Module AppComponent.

Local Open Scope num_scope.

Record t : Type := {
  storage : LocalStorage;
  isDarkMode : bool;
  selectedPaperSize : PaperSize.t;
  selectedPaperSizeIndex : num;
  pictureWidth : num;
  pictureHeight : num;
  placeholderShape : Shape;
  margins : num;
  spacing : num;
  allowWhitespace : bool;
  showCropMarks : bool;
  hasLayoutError : bool;
  errorMessage : string;
  rows : num;
  columns : num;
  placeholders : list PlaceholderState.t;
  offsetX : num;
  offsetY : num
}.

(** Paper sizes in cm. *)
Definition paperSizes : list PaperSize.t :=
  [ {| PaperSize.label := "10×15 cm";
       PaperSize.width := Fin 10; PaperSize.height := Fin 15 |};
    {| PaperSize.label := "13×18 cm";
       PaperSize.width := Fin 13; PaperSize.height := Fin 18 |};
    {| PaperSize.label := "A5";
       PaperSize.width := Fin 14.8; PaperSize.height := Fin 21 |};
    {| PaperSize.label := "A4";
       PaperSize.width := Fin 21; PaperSize.height := Fin 29.7 |} ].

(** *** Field assignments *)

Definition setError (b : bool) (msg : string) (c : t) : t :=
  {| storage := storage c; isDarkMode := isDarkMode c;
     selectedPaperSize := selectedPaperSize c;
     selectedPaperSizeIndex := selectedPaperSizeIndex c;
     pictureWidth := pictureWidth c; pictureHeight := pictureHeight c;
     placeholderShape := placeholderShape c;
     margins := margins c; spacing := spacing c;
     allowWhitespace := allowWhitespace c; showCropMarks := showCropMarks c;
     hasLayoutError := b; errorMessage := msg;
     rows := rows c; columns := columns c; placeholders := placeholders c;
     offsetX := offsetX c; offsetY := offsetY c |}.

Definition setColumns (n : num) (c : t) : t :=
  {| storage := storage c; isDarkMode := isDarkMode c;
     selectedPaperSize := selectedPaperSize c;
     selectedPaperSizeIndex := selectedPaperSizeIndex c;
     pictureWidth := pictureWidth c; pictureHeight := pictureHeight c;
     placeholderShape := placeholderShape c;
     margins := margins c; spacing := spacing c;
     allowWhitespace := allowWhitespace c; showCropMarks := showCropMarks c;
     hasLayoutError := hasLayoutError c; errorMessage := errorMessage c;
     rows := rows c; columns := n; placeholders := placeholders c;
     offsetX := offsetX c; offsetY := offsetY c |}.

Definition setRows (n : num) (c : t) : t :=
  {| storage := storage c; isDarkMode := isDarkMode c;
     selectedPaperSize := selectedPaperSize c;
     selectedPaperSizeIndex := selectedPaperSizeIndex c;
     pictureWidth := pictureWidth c; pictureHeight := pictureHeight c;
     placeholderShape := placeholderShape c;
     margins := margins c; spacing := spacing c;
     allowWhitespace := allowWhitespace c; showCropMarks := showCropMarks c;
     hasLayoutError := hasLayoutError c; errorMessage := errorMessage c;
     rows := n; columns := columns c; placeholders := placeholders c;
     offsetX := offsetX c; offsetY := offsetY c |}.

Definition setPlaceholders (ps : list PlaceholderState.t) (c : t) : t :=
  {| storage := storage c; isDarkMode := isDarkMode c;
     selectedPaperSize := selectedPaperSize c;
     selectedPaperSizeIndex := selectedPaperSizeIndex c;
     pictureWidth := pictureWidth c; pictureHeight := pictureHeight c;
     placeholderShape := placeholderShape c;
     margins := margins c; spacing := spacing c;
     allowWhitespace := allowWhitespace c; showCropMarks := showCropMarks c;
     hasLayoutError := hasLayoutError c; errorMessage := errorMessage c;
     rows := rows c; columns := columns c; placeholders := ps;
     offsetX := offsetX c; offsetY := offsetY c |}.

Definition setOffsets (ox oy : num) (c : t) : t :=
  {| storage := storage c; isDarkMode := isDarkMode c;
     selectedPaperSize := selectedPaperSize c;
     selectedPaperSizeIndex := selectedPaperSizeIndex c;
     pictureWidth := pictureWidth c; pictureHeight := pictureHeight c;
     placeholderShape := placeholderShape c;
     margins := margins c; spacing := spacing c;
     allowWhitespace := allowWhitespace c; showCropMarks := showCropMarks c;
     hasLayoutError := hasLayoutError c; errorMessage := errorMessage c;
     rows := rows c; columns := columns c; placeholders := placeholders c;
     offsetX := ox; offsetY := oy |}.

Definition setStorage (ls : LocalStorage) (c : t) : t :=
  {| storage := ls; isDarkMode := isDarkMode c;
     selectedPaperSize := selectedPaperSize c;
     selectedPaperSizeIndex := selectedPaperSizeIndex c;
     pictureWidth := pictureWidth c; pictureHeight := pictureHeight c;
     placeholderShape := placeholderShape c;
     margins := margins c; spacing := spacing c;
     allowWhitespace := allowWhitespace c; showCropMarks := showCropMarks c;
     hasLayoutError := hasLayoutError c; errorMessage := errorMessage c;
     rows := rows c; columns := columns c; placeholders := placeholders c;
     offsetX := offsetX c; offsetY := offsetY c |}.

Definition setIsDarkMode (b : bool) (c : t) : t :=
  {| storage := storage c; isDarkMode := b;
     selectedPaperSize := selectedPaperSize c;
     selectedPaperSizeIndex := selectedPaperSizeIndex c;
     pictureWidth := pictureWidth c; pictureHeight := pictureHeight c;
     placeholderShape := placeholderShape c;
     margins := margins c; spacing := spacing c;
     allowWhitespace := allowWhitespace c; showCropMarks := showCropMarks c;
     hasLayoutError := hasLayoutError c; errorMessage := errorMessage c;
     rows := rows c; columns := columns c; placeholders := placeholders c;
     offsetX := offsetX c; offsetY := offsetY c |}.

(** *** calculateGrid: the local constants *)

Definition paperWidthMm (c : t) : num :=
  PaperSize.width (selectedPaperSize c) * Fin 10.
Definition paperHeightMm (c : t) : num :=
  PaperSize.height (selectedPaperSize c) * Fin 10.

Definition pictureWidthMm (c : t) : num := pictureWidth c.
Definition pictureHeightMm (c : t) : num :=
  if Shape_eqb (placeholderShape c) round then pictureWidth c
  else pictureHeight c.

Definition marginMm (c : t) : num := margins c.
Definition spacingMm (c : t) : num := spacing c.

Definition minRequiredWidth (c : t) : num :=
  pictureWidthMm c + Fin 2 * marginMm c.
Definition minRequiredHeight (c : t) : num :=
  pictureHeightMm c + Fin 2 * marginMm c.

Definition availableWidth (c : t) : num := paperWidthMm c - Fin 2 * marginMm c.
Definition availableHeight (c : t) : num := paperHeightMm c - Fin 2 * marginMm c.

Definition totalGridWidth (c : t) : num :=
  columns c * pictureWidthMm c + (columns c - Fin 1) * spacingMm c.
Definition totalGridHeight (c : t) : num :=
  rows c * pictureHeightMm c + (rows c - Fin 1) * spacingMm c.

(** The object literal the [map] callback returns for [index]. *)
Definition newPlaceholder (c : t) (index : Z) : PlaceholderState.t :=
  let row := floor (of_Z index / columns c) in
  let col := rem (of_Z index) (columns c) in
  {| PlaceholderState.id := of_Z index;
     PlaceholderState.imageData := None;
     PlaceholderState.offsetX := Fin 0;
     PlaceholderState.offsetY := Fin 0;
     PlaceholderState.scale := Fin 1;
     PlaceholderState.imageWidth := Fin 0;
     PlaceholderState.imageHeight := Fin 0;
     PlaceholderState.left := offsetX c + col * (pictureWidthMm c + spacingMm c);
     PlaceholderState.top := offsetY c + row * (pictureHeightMm c + spacingMm c);
     PlaceholderState.isDragOver := false;
     PlaceholderState.isDraggingImage := false |}.

Section WithHost.

(** How a template literal renders a number ([Number::toString]), and the
    host's [JSON.stringify]. *)
Variable Number_toString : num → string.
Variable JSON_stringify : jsval → string.

Local Abbreviation show := Number_toString.

Definition widthErrorMessage (c : t) : string :=
  "Error: Picture width (" +:+ show (pictureWidthMm c)
  +:+ "mm) plus margins (2×" +:+ show (marginMm c)
  +:+ "mm = " +:+ show (Fin 2 * marginMm c)
  +:+ "mm) exceeds paper width (" +:+ show (paperWidthMm c)
  +:+ "mm). Required: " +:+ show (minRequiredWidth c)
  +:+ "mm, available: " +:+ show (paperWidthMm c) +:+ "mm.".

Definition heightErrorMessage (c : t) : string :=
  "Error: Picture height (" +:+ show (pictureHeightMm c)
  +:+ "mm) plus margins (2×" +:+ show (marginMm c)
  +:+ "mm = " +:+ show (Fin 2 * marginMm c)
  +:+ "mm) exceeds paper height (" +:+ show (paperHeightMm c)
  +:+ "mm). Required: " +:+ show (minRequiredHeight c)
  +:+ "mm, available: " +:+ show (paperHeightMm c) +:+ "mm.".

Definition noSpaceErrorMessage (c : t) : string :=
  "Error: No space for pictures on the selected paper. Picture size: "
  +:+ show (pictureWidthMm c) +:+ "×" +:+ show (pictureHeightMm c)
  +:+ "mm, available area after margins: "
  +:+ show (availableWidth c) +:+ "×" +:+ show (availableHeight c)
  +:+ "mm. Please reduce picture size or margins.".

(** The five assignments every error branch makes before it returns. *)
Definition layoutError (msg : string) (c : t) : t :=
  setPlaceholders [] (setColumns (Fin 0) (setRows (Fin 0) (setError true msg c))).

(** Lines 196-197: how many pictures fit. *)
Definition countFitting (c : t) : t :=
  let c := setColumns
             (floor ((availableWidth c + spacingMm c)
                     / (pictureWidthMm c + spacingMm c))) c in
  setRows (floor ((availableHeight c + spacingMm c)
                  / (pictureHeightMm c + spacingMm c))) c.

(** Lines 209-236: centring offsets and the placeholder array. *)
Definition placeGrid (c : t) : completion t :=
  let c := setOffsets
             (marginMm c + (availableWidth c - totalGridWidth c) / Fin 2)
             (marginMm c + (availableHeight c - totalGridHeight c) / Fin 2)
             c in
  let totalPlaceholders := rows c * columns c in
  match Array_indices totalPlaceholders with
  | None => RangeError c
  | Some indices => Normal (setPlaceholders (map (newPlaceholder c) indices) c)
  end.

Definition calculateGrid (c : t) : completion t :=
  let c := setError false "" c in
  if minRequiredWidth c >? paperWidthMm c then
    Normal (layoutError (widthErrorMessage c) c)
  else if minRequiredHeight c >? paperHeightMm c then
    Normal (layoutError (heightErrorMessage c) c)
  else
    let c := countFitting c in
    if (columns c <=? Fin 0) || (rows c <=? Fin 0) then
      Normal (layoutError (noSpaceErrorMessage c) c)
    else placeGrid c.

(** *** Image fit, pan and zoom *)

Definition mmToCssPx : num := Fin 96 / Fin 25.4.

Definition fitImageToPlaceholder (c : t) (placeholder : PlaceholderState.t)
  : PlaceholderState.t :=
  if negb (truthy (PlaceholderState.imageWidth placeholder))
     || negb (truthy (PlaceholderState.imageHeight placeholder))
  then placeholder
  else
    let placeholderWidthPx := pictureWidth c * mmToCssPx in
    let placeholderHeightPx :=
      (if Shape_eqb (placeholderShape c) round then pictureWidth c
       else pictureHeight c) * mmToCssPx in
    let scaleX := placeholderWidthPx / PlaceholderState.imageWidth placeholder in
    let scaleY := placeholderHeightPx / PlaceholderState.imageHeight placeholder in
    let fitScale :=
      if allowWhitespace c then min scaleX scaleY else max scaleX scaleY in
    let scaledImageWidth := PlaceholderState.imageWidth placeholder * fitScale in
    let scaledImageHeight := PlaceholderState.imageHeight placeholder * fitScale in
    PlaceholderState.setTransform placeholder
      ((placeholderWidthPx - scaledImageWidth) / Fin 2)
      ((placeholderHeightPx - scaledImageHeight) / Fin 2)
      fitScale.

Definition constrainOffset (c : t) (offset : num)
    (placeholder : PlaceholderState.t) (axis : Axis) : num :=
  let placeholderWidthPx := pictureWidth c * mmToCssPx in
  let placeholderHeightPx := pictureHeight c * mmToCssPx in
  let scaledImageWidth :=
    PlaceholderState.imageWidth placeholder * PlaceholderState.scale placeholder in
  let scaledImageHeight :=
    PlaceholderState.imageHeight placeholder * PlaceholderState.scale placeholder in
  match axis with
  | x =>
      if scaledImageWidth <=? placeholderWidthPx then
        (placeholderWidthPx - scaledImageWidth) / Fin 2
      else
        let maxOffset := Fin 0 in
        let minOffset := placeholderWidthPx - scaledImageWidth in
        max minOffset (min maxOffset offset)
  | y =>
      if scaledImageHeight <=? placeholderHeightPx then
        (placeholderHeightPx - scaledImageHeight) / Fin 2
      else
        let maxOffset := Fin 0 in
        let minOffset := placeholderHeightPx - scaledImageHeight in
        max minOffset (min maxOffset offset)
  end.

Definition calculateMinimumScale (c : t) (placeholder : PlaceholderState.t)
  : num :=
  let placeholderWidthPx := pictureWidth c * mmToCssPx in
  let placeholderHeightPx :=
    (if Shape_eqb (placeholderShape c) round then pictureWidth c
     else pictureHeight c) * mmToCssPx in
  let minScaleX := placeholderWidthPx / PlaceholderState.imageWidth placeholder in
  let minScaleY := placeholderHeightPx / PlaceholderState.imageHeight placeholder in
  max minScaleX minScaleY.

(** The zoom factor of one wheel step. *)
Definition zoomFactor (event : WheelEvent.t) : num :=
  if WheelEvent.deltaY event <? Fin 0 then Fin 1.1 else Fin 1 / Fin 1.1.

(** The placeholder object after the handler ran; the component itself is
    only read. *)
Definition onWheel (c : t) (event : WheelEvent.t)
    (placeholder : PlaceholderState.t) : PlaceholderState.t :=
  if negb (PlaceholderState.hasImage placeholder) then placeholder
  else
    let mouseX := WheelEvent.clientX event - WheelEvent.rectLeft event in
    let mouseY := WheelEvent.clientY event - WheelEvent.rectTop event in
    let oldScale := PlaceholderState.scale placeholder in
    let newScale := oldScale * zoomFactor event in
    let newScale :=
      if negb (allowWhitespace c)
      then max (calculateMinimumScale c placeholder) newScale
      else newScale in
    let imageX := (mouseX - PlaceholderState.offsetX placeholder) / oldScale in
    let imageY := (mouseY - PlaceholderState.offsetY placeholder) / oldScale in
    let newOffsetX := mouseX - imageX * newScale in
    let newOffsetY := mouseY - imageY * newScale in
    let placeholder :=
      PlaceholderState.setTransform placeholder
        (PlaceholderState.offsetX placeholder)
        (PlaceholderState.offsetY placeholder) newScale in
    let newOffsetX :=
      if negb (allowWhitespace c)
      then constrainOffset c newOffsetX placeholder x else newOffsetX in
    let newOffsetY :=
      if negb (allowWhitespace c)
      then constrainOffset c newOffsetY placeholder y else newOffsetY in
    PlaceholderState.setTransform placeholder newOffsetX newOffsetY
      (PlaceholderState.scale placeholder).

(** *** Settings *)

Definition toggleDarkMode (c : t) : t :=
  let c := setIsDarkMode (negb (isDarkMode c)) c in
  setStorage (StorageService.setDarkMode (storage c) (isDarkMode c)) c.

(** The object literal handed to [storageService.saveSettings]. *)
Definition settingsRecord (c : t) : gmap string jsval :=
  list_to_map
    [ ("selectedPaperSizeIndex", JNum (selectedPaperSizeIndex c));
      ("pictureWidth", JNum (pictureWidth c));
      ("pictureHeight", JNum (pictureHeight c));
      ("margins", JNum (margins c));
      ("spacing", JNum (spacing c));
      ("allowWhitespace", JBool (allowWhitespace c));
      ("showCropMarks", JBool (showCropMarks c));
      ("isDarkMode", JBool (isDarkMode c));
      ("placeholderShape", JStr (Shape_name (placeholderShape c))) ].

Definition saveSettings (c : t) : t :=
  setStorage
    (StorageService.saveSettings JSON_stringify (storage c) (settingsRecord c))
    c.

(** The nine assignments at the head of [restoreSettings]. *)
Definition resetToDefaults (c : t) : t :=
  {| storage := storage c; isDarkMode := isDarkMode c;
     selectedPaperSize :=
       nth 0 paperSizes (selectedPaperSize c);
     selectedPaperSizeIndex := Fin 0;
     pictureWidth := Fin 44; pictureHeight := Fin 44;
     placeholderShape := rectangular;
     margins := Fin 4; spacing := Fin 2;
     allowWhitespace := false; showCropMarks := true;
     hasLayoutError := hasLayoutError c; errorMessage := errorMessage c;
     rows := rows c; columns := columns c; placeholders := placeholders c;
     offsetX := offsetX c; offsetY := offsetY c |}.

(** [updatePrintStyles] only rewrites a style element of the document and
    leaves the component untouched. *)
Definition updatePrintStyles (c : t) : t := c.

Definition restoreSettings (c : t) : completion t :=
  let c := resetToDefaults c in
  match calculateGrid c with
  | RangeError c => RangeError c
  | Normal c =>
      let c := updatePrintStyles c in
      Normal (saveSettings c)
  end.

Definition onParameterChange (c : t) : completion t :=
  match calculateGrid c with
  | RangeError c => RangeError c
  | Normal c => Normal (saveSettings c)
  end.

End WithHost.

(** *** Loading, clearing and refitting images

    The handlers below receive a placeholder object of [placeholders] and
    assign to its fields; they are functions from the object before to the
    object after.  [event.stopPropagation()] and [preventDefault()] do not
    touch the component. *)

(** The [img.onload] callback of [loadImage]: [result] is the data URL the
    file reader produced, [width] and [height] the size of the decoded
    image. *)
Definition loadImage_onload (c : t) (result : option string)
    (width height : num) (placeholder : PlaceholderState.t)
  : PlaceholderState.t :=
  fitImageToPlaceholder c
    {| PlaceholderState.id := PlaceholderState.id placeholder;
       PlaceholderState.imageData := result;
       PlaceholderState.offsetX := PlaceholderState.offsetX placeholder;
       PlaceholderState.offsetY := PlaceholderState.offsetY placeholder;
       PlaceholderState.scale := PlaceholderState.scale placeholder;
       PlaceholderState.imageWidth := width;
       PlaceholderState.imageHeight := height;
       PlaceholderState.left := PlaceholderState.left placeholder;
       PlaceholderState.top := PlaceholderState.top placeholder;
       PlaceholderState.isDragOver := PlaceholderState.isDragOver placeholder;
       PlaceholderState.isDraggingImage :=
         PlaceholderState.isDraggingImage placeholder |}.

Definition clearImage (placeholder : PlaceholderState.t) : PlaceholderState.t :=
  {| PlaceholderState.id := PlaceholderState.id placeholder;
     PlaceholderState.imageData := None;
     PlaceholderState.offsetX := Fin 0;
     PlaceholderState.offsetY := Fin 0;
     PlaceholderState.scale := Fin 1;
     PlaceholderState.imageWidth := Fin 0;
     PlaceholderState.imageHeight := Fin 0;
     PlaceholderState.left := PlaceholderState.left placeholder;
     PlaceholderState.top := PlaceholderState.top placeholder;
     PlaceholderState.isDragOver := PlaceholderState.isDragOver placeholder;
     PlaceholderState.isDraggingImage :=
       PlaceholderState.isDraggingImage placeholder |}.

Definition resetImage (c : t) (placeholder : PlaceholderState.t)
  : PlaceholderState.t :=
  if negb (PlaceholderState.hasImage placeholder)
     || negb (truthy (PlaceholderState.imageWidth placeholder))
     || negb (truthy (PlaceholderState.imageHeight placeholder))
  then placeholder
  else fitImageToPlaceholder c placeholder.

(** The callback of [forEach] makes the six assignments of [clearImage]. *)
Definition clearAllPictures (c : t) : t :=
  setPlaceholders (map clearImage (placeholders c)) c.

(** *** Dragging an image

    [dragState] is a private field of the component; the handlers take it
    beside the component and return what they assign to it. *)

Definition idleDragState : DragState.t :=
  {| DragState.active := false; DragState.placeholderId := None;
     DragState.startX := Fin 0; DragState.startY := Fin 0;
     DragState.startOffsetX := Fin 0; DragState.startOffsetY := Fin 0 |}.

Definition setIsDraggingImage (b : bool) (placeholder : PlaceholderState.t)
  : PlaceholderState.t :=
  {| PlaceholderState.id := PlaceholderState.id placeholder;
     PlaceholderState.imageData := PlaceholderState.imageData placeholder;
     PlaceholderState.offsetX := PlaceholderState.offsetX placeholder;
     PlaceholderState.offsetY := PlaceholderState.offsetY placeholder;
     PlaceholderState.scale := PlaceholderState.scale placeholder;
     PlaceholderState.imageWidth := PlaceholderState.imageWidth placeholder;
     PlaceholderState.imageHeight := PlaceholderState.imageHeight placeholder;
     PlaceholderState.left := PlaceholderState.left placeholder;
     PlaceholderState.top := PlaceholderState.top placeholder;
     PlaceholderState.isDragOver := PlaceholderState.isDragOver placeholder;
     PlaceholderState.isDraggingImage := b |}.

Definition onImageMouseDown (dragState : DragState.t) (event : MouseEvent.t)
    (placeholder : PlaceholderState.t) : DragState.t * PlaceholderState.t :=
  if negb (PlaceholderState.hasImage placeholder) then (dragState, placeholder)
  else
    ({| DragState.active := true;
        DragState.placeholderId := Some (PlaceholderState.id placeholder);
        DragState.startX := MouseEvent.clientX event;
        DragState.startY := MouseEvent.clientY event;
        DragState.startOffsetX := PlaceholderState.offsetX placeholder;
        DragState.startOffsetY := PlaceholderState.offsetY placeholder |},
     setIsDraggingImage true placeholder).

(** [p.id === this.dragState.placeholderId]. *)
Definition isDragged (dragState : DragState.t) (p : PlaceholderState.t) : bool :=
  match DragState.placeholderId dragState with
  | Some i => strictEq (PlaceholderState.id p) i
  | None => false
  end.

Definition onMouseMove (c : t) (dragState : DragState.t) (event : MouseEvent.t)
  : t :=
  if negb (DragState.active dragState)
     || negb (bool_decide (is_Some (DragState.placeholderId dragState)))
  then c
  else
    let deltaX := MouseEvent.clientX event - DragState.startX dragState in
    let deltaY := MouseEvent.clientY event - DragState.startY dragState in
    let newOffsetX := DragState.startOffsetX dragState + deltaX in
    let newOffsetY := DragState.startOffsetY dragState + deltaY in
    let move (placeholder : PlaceholderState.t) :=
      let newOffsetX :=
        if negb (allowWhitespace c)
        then constrainOffset c newOffsetX placeholder x else newOffsetX in
      let newOffsetY :=
        if negb (allowWhitespace c)
        then constrainOffset c newOffsetY placeholder y else newOffsetY in
      PlaceholderState.setTransform placeholder newOffsetX newOffsetY
        (PlaceholderState.scale placeholder) in
    setPlaceholders (updateFirst (isDragged dragState) move (placeholders c)) c.

Definition onMouseUp (c : t) (dragState : DragState.t) : t * DragState.t :=
  let c :=
    if DragState.active dragState
       && bool_decide (is_Some (DragState.placeholderId dragState))
    then setPlaceholders
           (updateFirst (isDragged dragState) (setIsDraggingImage false)
              (placeholders c)) c
    else c in
  (c, idleDragState).

(** *** Whitespace mode and start-up *)

Section WithStorage.

Variable Number_toString : num → string.
Variable JSON_parse : string → option jsval.
Variable JSON_stringify : jsval → string.


(** A property of the settings object, read at the type the [AppSettings]
    interface declares for it.  A stored value of another type has no
    counterpart in the typed fields of the component: [None]. *)
Definition numberField (settings : gmap string jsval) (key : string)
  : option num :=
  match settings !! key with Some (JNum n) => Some n | _ => None end.

Definition booleanField (settings : gmap string jsval) (key : string)
  : option bool :=
  match settings !! key with Some (JBool b) => Some b | _ => None end.

Definition shapeField (settings : gmap string jsval) (key : string)
  : option Shape :=
  match settings !! key with
  | Some (JStr s) =>
      if bool_decide (s = "rectangular") then Some rectangular
      else if bool_decide (s = "round") then Some round
      else None
  | _ => None
  end.

(** [this.paperSizes[index]]: [undefined], here [None], unless the index is
    an integer within the array. *)
Definition paperSizeAt (index : num) : option PaperSize.t :=
  match index with
  | Fin q =>
      if Qeq_bool (inject_Z (Qfloor q)) q && Qle_bool 0 q
      then paperSizes !! Z.to_nat (Qfloor q)
      else None
  | _ => None
  end.

(** How [ngOnInit] ends: it ran [calculateGrid] to its end; or the selected
    paper size was [undefined] and [calculateGrid] threw a [TypeError] on
    reading its width; or a stored value was not of its declared type, which
    the typed component cannot represent. *)
Inductive startup : Type :=
  | Started (r : completion t)
  | TypeError
  | Untyped.

(** Registering the two mouse listeners on the document leaves the
    component as it is. *)
Definition ngOnInit (c : t) : startup :=
  let settings := StorageService.loadSettings JSON_parse (storage c) in
  match numberField settings "selectedPaperSizeIndex",
        numberField settings "pictureWidth",
        numberField settings "pictureHeight",
        numberField settings "margins",
        numberField settings "spacing",
        booleanField settings "allowWhitespace",
        booleanField settings "showCropMarks",
        shapeField settings "placeholderShape" with
  | Some index, Some width, Some height, Some margin, Some space,
    Some whitespace, Some marks, Some shape =>
      match paperSizeAt index with
      | None => TypeError
      | Some paper =>
          let c :=
            {| storage := storage c; isDarkMode := isDarkMode c;
               selectedPaperSize := paper;
               selectedPaperSizeIndex := index;
               pictureWidth := width; pictureHeight := height;
               placeholderShape := shape;
               margins := margin; spacing := space;
               allowWhitespace := whitespace; showCropMarks := marks;
               hasLayoutError := hasLayoutError c;
               errorMessage := errorMessage c;
               rows := rows c; columns := columns c;
               placeholders := placeholders c;
               offsetX := offsetX c; offsetY := offsetY c |} in
          let c := setIsDarkMode (StorageService.getDarkMode (storage c)) c in
          match calculateGrid Number_toString c with
          | RangeError c => Started (RangeError c)
          | Normal c => Started (Normal (updatePrintStyles c))
          end
      end
  | _, _, _, _, _, _, _, _ => Untyped
  end.

End WithStorage.

End AppComponent.

Import AppComponent.

(** ** Sample inputs *)

(** A stand-in for the host's number formatting: numerator and denominator. *)
Definition showFraction (n : num) : string :=
  match n with
  | Fin q => pretty (Qnum q) +:+ "/" +:+ pretty (Zpos (Qden q))
  | PInf => "Infinity"
  | NInf => "-Infinity"
  | NaN => "NaN"
  end.

Definition emptyStorage : LocalStorage :=
  {| items := ∅; readable := true; writable := true |}.

Definition paper10x15 : PaperSize.t :=
  {| PaperSize.label := "10×15 cm";
     PaperSize.width := Fin 10; PaperSize.height := Fin 15 |}.

(** A component on 10×15 cm paper with the given picture size, margin,
    spacing, shape and whitespace mode, before any grid was computed. *)
Definition component (pw ph m sp : Q) (shape : Shape) (ws : bool) : t :=
  {| storage := emptyStorage; isDarkMode := false;
     selectedPaperSize := paper10x15; selectedPaperSizeIndex := Fin 0;
     pictureWidth := Fin pw; pictureHeight := Fin ph;
     placeholderShape := shape; margins := Fin m; spacing := Fin sp;
     allowWhitespace := ws; showCropMarks := true;
     hasLayoutError := false; errorMessage := "";
     rows := Fin 0; columns := Fin 0; placeholders := [];
     offsetX := Fin 0; offsetY := Fin 0 |}.

(** The double quote character. *)
Definition dquote : Ascii.ascii := Ascii.ascii_of_nat 34.

(** A stored settings text and a stand-in for [JSON.parse] that knows it. *)
Definition storedText : string :=
  "{" +:+ String dquote "spacing" +:+ String dquote ":5}".

Definition sampleParse (text : string) : option jsval :=
  if bool_decide (text = storedText)
  then Some (JObj {[ "spacing" := JNum (Fin 5) ]})
  else None.

Definition storageWith (text : string) : LocalStorage :=
  {| items := {[ StorageService.SETTINGS_KEY := text ]};
     readable := true; writable := true |}.

(** ** What the layout properties speak about

    A placeholder occupies the rectangle from [(left, top)] with the picture
    width and the effective picture height of the component. *)



(** A placeholder holding an image of the given size, offsets and scale. *)
Definition picture (iw ih ox oy sc : Q) : PlaceholderState.t :=
  {| PlaceholderState.id := Fin 0;
     PlaceholderState.imageData := Some "data:image/png;base64,iVBORw0KGgo=";
     PlaceholderState.offsetX := Fin ox; PlaceholderState.offsetY := Fin oy;
     PlaceholderState.scale := Fin sc;
     PlaceholderState.imageWidth := Fin iw;
     PlaceholderState.imageHeight := Fin ih;
     PlaceholderState.left := Fin 0; PlaceholderState.top := Fin 0;
     PlaceholderState.isDragOver := false;
     PlaceholderState.isDraggingImage := false |}.

Definition wheelAt (cx cy dy : Q) : WheelEvent.t :=
  {| WheelEvent.clientX := Fin cx; WheelEvent.clientY := Fin cy;
     WheelEvent.deltaY := Fin dy;
     WheelEvent.rectLeft := Fin 0; WheelEvent.rectTop := Fin 0 |}.

(** ** What the image-fit properties speak about *)

(** The placeholder as rendered, in CSS pixels: the picture width and the
    effective picture height. *)
Definition placeholderWidthPx (c : t) : num := (pictureWidth c * mmToCssPx)%num.
Definition placeholderHeightPx (c : t) : num :=
  (pictureHeightMm c * mmToCssPx)%num.

(** The scaled image reaches from [offset] to [offset + size * scale] on each
    axis; it covers the placeholder when that spans [0, placeholder size]. *)
Definition covers (c : t) (p : PlaceholderState.t) : bool :=
  (PlaceholderState.offsetX p <=? Fin 0)%num
  && (placeholderWidthPx c
      <=? PlaceholderState.offsetX p
          + PlaceholderState.imageWidth p * PlaceholderState.scale p)%num
  && (PlaceholderState.offsetY p <=? Fin 0)%num
  && (placeholderHeightPx c
      <=? PlaceholderState.offsetY p
          + PlaceholderState.imageHeight p * PlaceholderState.scale p)%num.

(** The offset constraint applied to the requested offsets on both axes, as
    [onMouseMove] and [onWheel] do when whitespace is not allowed. *)
Definition constrainBoth (c : t) (newOffsetX newOffsetY : num)
    (p : PlaceholderState.t) : PlaceholderState.t :=
  PlaceholderState.setTransform p
    (constrainOffset c newOffsetX p x)
    (constrainOffset c newOffsetY p y)
    (PlaceholderState.scale p).

(** The scaled image lies within the placeholder on both axes. *)
Definition inside (c : t) (p : PlaceholderState.t) : bool :=
  (Fin 0 <=? PlaceholderState.offsetX p)%num
  && (PlaceholderState.offsetX p
      + PlaceholderState.imageWidth p * PlaceholderState.scale p
      <=? placeholderWidthPx c)%num
  && (Fin 0 <=? PlaceholderState.offsetY p)%num
  && (PlaceholderState.offsetY p
      + PlaceholderState.imageHeight p * PlaceholderState.scale p
      <=? placeholderHeightPx c)%num.

(** ** What the settings properties speak about *)

(** The four indices of [paperSizes], as values. *)
Definition validPaperIndex (index : num) : Prop :=
  (index ≃ Fin 0)%num ∨ (index ≃ Fin 1)%num ∨ (index ≃ Fin 2)%num
  ∨ (index ≃ Fin 3)%num.

(** Stand-ins for the host's JSON functions that agree on one record. *)
Definition savedText : string := "{settings}".
Definition constStringify (v : jsval) : string := savedText.
Definition constParse (record : gmap string jsval) (text : string)
  : option jsval :=
  if bool_decide (text = savedText) then Some (JObj record) else None.

(** A settings text and a stand-in for [JSON.parse] that reads a paper index
    of 4 from it. *)
Definition indexText : string := "{selectedPaperSizeIndex:4}".
Definition indexParse (text : string) : option jsval :=
  if bool_decide (text = indexText)
  then Some (JObj {[ "selectedPaperSizeIndex" := JNum (Fin 4) ]})
  else None.

(** * Properties *)

(** ** Arithmetic of [num] on finite values *)

Section NumFacts.

Local Open Scope num_scope.

Lemma le_Fin (p q : Q) : (Fin p <=? Fin q) = true ↔ (p <= q)%Q.
Proof. apply Qle_bool_iff. Qed.

Lemma le_Fin_false (p q : Q) : (Fin p <=? Fin q) = false ↔ (q < p)%Q.
Proof.
  simpl. pose proof (Qle_bool_iff p q) as Hb.
  destruct (Qle_bool p q); split; intros H; try done.
  - exfalso. apply (Qlt_not_le _ _ H). by apply Hb.
  - apply Qnot_le_lt. intros Hle. apply Hb in Hle. discriminate.
Qed.

Lemma lt_Fin (p q : Q) : (Fin p <? Fin q) = true ↔ (p < q)%Q.
Proof.
  simpl. rewrite negb_true_iff. apply (le_Fin_false q p).
Qed.

Lemma lt_Fin_false (p q : Q) : (Fin p <? Fin q) = false ↔ (q <= p)%Q.
Proof. simpl. rewrite negb_false_iff. apply Qle_bool_iff. Qed.

Lemma gt_Fin (p q : Q) : (Fin p >? Fin q) = true ↔ (q < p)%Q.
Proof. apply lt_Fin. Qed.

Lemma gt_Fin_false (p q : Q) : (Fin p >? Fin q) = false ↔ (p <= q)%Q.
Proof. apply lt_Fin_false. Qed.

Lemma Qeq_bool_false (p q : Q) : Qeq_bool p q = false ↔ ¬ (p == q)%Q.
Proof.
  rewrite <- Qeq_bool_iff. destruct (Qeq_bool p q); split; intros; congruence.
Qed.

Lemma div_Fin (p q : Q) : ¬ (q == 0)%Q → Fin p / Fin q = Fin (p / q).
Proof. intros Hq. simpl. apply Qeq_bool_false in Hq. by rewrite Hq. Qed.

(** A sum is finite only when both summands are. *)
Lemma add_Fin_inv (a b : num) (r : Q) :
  a + b = Fin r → ∃ p q, a = Fin p ∧ b = Fin q.
Proof. destruct a, b; simpl; intros; try discriminate; eauto. Qed.

Lemma sub_Fin_inv (a b : num) (r : Q) :
  a - b = Fin r → ∃ p q, a = Fin p ∧ b = Fin q.
Proof. destruct a, b; simpl; intros; try discriminate; eauto. Qed.

Lemma inf_of_not_Fin (s : comparison) (r : Q) : inf_of s ≠ Fin r.
Proof. by destruct s. Qed.

Lemma mul_Fin_inv (a b : num) (r : Q) :
  a * b = Fin r → ∃ p q, a = Fin p ∧ b = Fin q.
Proof.
  destruct a, b; simpl; intros H; try discriminate; eauto;
    exfalso; revert H;
    repeat match goal with |- context [sgn ?q] => destruct (sgn q) end;
    discriminate.
Qed.

Lemma floor_Fin_inv (a : num) (r : Q) :
  floor a = Fin r → ∃ p, a = Fin p ∧ r = inject_Z (Qfloor p).
Proof. destruct a; simpl; intros H; inversion H; eauto. Qed.

(** [Math.floor] yields an integer, an infinity or NaN. *)
Lemma floor_cases (a : num) :
  (∃ z, floor a = of_Z z) ∨ isFinite (floor a) = false.
Proof. destruct a; simpl; eauto. Qed.

End NumFacts.

(** ** GridCalculator *)

Section Grid.

Local Open Scope num_scope.

Variable show : num → string.

(** The checks and constants of [calculateGrid] do not read the error
    fields it clears first. *)
Lemma calculateGrid_unfold (c : t) :
  calculateGrid show c =
    let c0 := setError false "" c in
    if minRequiredWidth c >? paperWidthMm c then
      Normal (layoutError (widthErrorMessage show c) c0)
    else if minRequiredHeight c >? paperHeightMm c then
      Normal (layoutError (heightErrorMessage show c) c0)
    else
      let c1 := countFitting c0 in
      if (columns c1 <=? Fin 0) || (rows c1 <=? Fin 0) then
        Normal (layoutError (noSpaceErrorMessage show c) c1)
      else placeGrid c1.
Proof. reflexivity. Qed.

Lemma placeGrid_counts (c : t) :
  columns (final (placeGrid c)) = columns c
  ∧ rows (final (placeGrid c)) = rows c.
Proof.
  unfold placeGrid. cbn zeta.
  destruct (Array_indices _); simpl; auto.
Qed.

End Grid.

(** C1. For a component that passes the width and the height fit check,
    [calculateGrid] assigns [columns = floor((availableWidth + spacing) /
    (pictureWidth + spacing))] and [rows = floor((availableHeight + spacing)
    / (effectiveHeight + spacing))], with the available extent the paper size
    in mm (cm times 10) minus twice the margin and the effective height the
    picture width for a round shape and the picture height otherwise.  These
    stay the counts of the component the call leaves, unless one of them is
    not positive and the no-space branch resets both. *)
Theorem calculateGrid_counts (show : num → string) (c : t) :
  (minRequiredWidth c >? paperWidthMm c)%num = false →
  (minRequiredHeight c >? paperHeightMm c)%num = false →
  let availableW :=
    (PaperSize.width (selectedPaperSize c) * Fin 10 - Fin 2 * margins c)%num in
  let availableH :=
    (PaperSize.height (selectedPaperSize c) * Fin 10 - Fin 2 * margins c)%num in
  let effectiveHeight :=
    match placeholderShape c with
    | round => pictureWidth c
    | rectangular => pictureHeight c
    end in
  let cols := floor ((availableW + spacing c) / (pictureWidth c + spacing c))%num in
  let rws := floor ((availableH + spacing c) / (effectiveHeight + spacing c))%num in
  let counted := countFitting (setError false "" c) in
  let result := final (calculateGrid show c) in
  columns counted = cols ∧ rows counted = rws
  ∧ (if (cols <=? Fin 0)%num || (rws <=? Fin 0)%num
     then hasLayoutError result = true
          ∧ columns result = Fin 0 ∧ rows result = Fin 0
     else hasLayoutError result = false
          ∧ columns result = cols ∧ rows result = rws).
Proof.
  intros Hw Hh availableW availableH effectiveHeight cols rws counted result.
  assert (Hc : columns counted = cols) by reflexivity.
  assert (Hr : rows counted = rws).
  { subst counted rws effectiveHeight. unfold countFitting, pictureHeightMm.
    simpl. by destruct (placeholderShape c). }
  split; [done|]. split; [done|].
  subst result. rewrite calculateGrid_unfold. cbn zeta. rewrite Hw, Hh.
  fold counted. rewrite Hc, Hr.
  destruct ((cols <=? Fin 0)%num || (rws <=? Fin 0)%num); simpl; [done|].
  destruct (placeGrid_counts counted) as [H1 H2].
  rewrite H1, H2. split; [|done].
  unfold placeGrid. cbn zeta. by destruct (Array_indices _).
Qed.

Lemma calculateGrid_counts_witness :
  let c := component 44 44 4 2 rectangular false in
  (minRequiredWidth c >? paperWidthMm c)%num = false
  ∧ (minRequiredHeight c >? paperHeightMm c)%num = false
  ∧ columns (final (calculateGrid showFraction c)) = Fin 2
  ∧ rows (final (calculateGrid showFraction c)) = Fin 3.
Proof.
  intros c.
  assert (Hw : (minRequiredWidth c >? paperWidthMm c)%num = false) by reflexivity.
  assert (Hh : (minRequiredHeight c >? paperHeightMm c)%num = false) by reflexivity.
  split; [exact Hw|]. split; [exact Hh|].
  destruct (calculateGrid_counts showFraction c Hw Hh) as (_ & _ & H).
  vm_compute in H. destruct H as (_ & H1 & H2).
  split; [exact H1 | exact H2].
Defined.

Section GridFacts.

Local Open Scope num_scope.

Variable show : num → string.

Lemma Qfloor_inject_mul (R K : Z) :
  Qfloor (inject_Z R * inject_Z K) = (R * K)%Z.
Proof.
  rewrite <- inject_Z_mult. apply Qfloor_Z.
Qed.

(** [Array(n)] succeeds exactly on the integers from 0 to 2^32 - 1. *)
Lemma Array_indices_Some (n : num) (l : list Z) :
  Array_indices n = Some l →
  ∃ q, n = Fin q ∧ (inject_Z (Qfloor q) == q)%Q
       ∧ (0 ≤ Qfloor q ≤ 2 ^ 32 - 1)%Z
       ∧ l = map Z.of_nat (seq 0 (Z.to_nat (Qfloor q))).
Proof.
  destruct n as [q| | |]; simpl; try discriminate.
  destruct (Qeq_bool _ _) eqn:He; simpl; [|discriminate].
  destruct (Qle_bool 0 q) eqn:H0; simpl; [|discriminate].
  destruct (Qle_bool q _) eqn:H1; simpl; [|discriminate].
  intros [= <-]. exists q. apply Qeq_bool_iff in He.
  apply Qle_bool_iff in H0, H1.
  repeat split; auto.
  - change 0%Z with (Qfloor 0). by apply Qfloor_resp_le.
  - rewrite <- (Qfloor_Z (2 ^ 32 - 1)). by apply Qfloor_resp_le.
Qed.

Lemma Array_indices_of_Z (z : Z) :
  (0 ≤ z ≤ 2 ^ 32 - 1)%Z →
  Array_indices (of_Z z) = Some (map Z.of_nat (seq 0 (Z.to_nat z))).
Proof.
  intros [H0 H1]. unfold Array_indices, of_Z. rewrite Qfloor_Z.
  replace (Qeq_bool (inject_Z z) (inject_Z z)) with true
    by (symmetry; by apply Qeq_bool_iff).
  replace (Qle_bool 0 (inject_Z z)) with true.
  2:{ symmetry. apply Qle_bool_iff. change 0%Q with (inject_Z 0).
      by rewrite <- Zle_Qle. }
  replace (Qle_bool (inject_Z z) (inject_Z (2 ^ 32 - 1))) with true.
  2:{ symmetry. apply Qle_bool_iff. by rewrite <- Zle_Qle. }
  reflexivity.
Qed.

(** A positive finite count produced by [Math.floor] is an integer of at
    least one. *)
Lemma floor_positive (a : num) (p : Q) :
  floor a = Fin p → (floor a <=? Fin 0) = false →
  ∃ z, floor a = of_Z z ∧ (1 ≤ z)%Z.
Proof.
  intros Hf Hle. destruct (floor_Fin_inv _ _ Hf) as (q & -> & ->).
  simpl in *. exists (Qfloor q). split; [done|].
  apply (le_Fin_false (inject_Z (Qfloor q)) 0) in Hle.
  change 0%Q with (inject_Z 0) in Hle. rewrite <- Zlt_Qlt in Hle. lia.
Qed.

End GridFacts.

(** C8. Whenever [calculateGrid] returns without a layout error, [rows] and
    [columns] are integers of at least one and the placeholder list has
    [rows * columns] entries. *)
Theorem calculateGrid_success_invariant (show : num → string) (c c' : t) :
  calculateGrid show c = Normal c' →
  hasLayoutError c' = false →
  ∃ R K : Z,
    rows c' = of_Z R ∧ columns c' = of_Z K
    ∧ (1 ≤ R)%Z ∧ (1 ≤ K)%Z
    ∧ length (placeholders c') = Z.to_nat (R * K).
Proof.
  rewrite calculateGrid_unfold. cbn zeta.
  destruct (minRequiredWidth c >? paperWidthMm c)%num;
    [intros [= <-]; discriminate|].
  destruct (minRequiredHeight c >? paperHeightMm c)%num;
    [intros [= <-]; discriminate|].
  set (c1 := countFitting (setError false "" c)).
  destruct (orb _ _) eqn:Hz; [intros [= <-]; discriminate|].
  apply orb_false_iff in Hz as [Hk Hr].
  unfold placeGrid. cbn zeta.
  destruct (Array_indices _) as [indices|] eqn:Ha; [|discriminate].
  intros [= <-] _. simpl in *.
  apply Array_indices_Some in Ha as (q & Hq & _ & _ & ->).
  destruct (mul_Fin_inv _ _ _ Hq) as (pr & pk & Hpr & Hpk).
  destruct (floor_positive _ _ Hpr Hr) as (R & HR & HR1).
  destruct (floor_positive _ _ Hpk Hk) as (K & HK & HK1).
  exists R, K. rewrite length_map, length_map, length_seq.
  change (rows c1) with (floor ((availableHeight c + spacingMm c)
                                / (pictureHeightMm c + spacingMm c))%num) in *.
  change (columns c1) with (floor ((availableWidth c + spacingMm c)
                                   / (pictureWidthMm c + spacingMm c))%num) in *.
  rewrite HR, HK in Hq |- *. repeat split; auto.
  simpl in Hq. injection Hq as <-. by rewrite Qfloor_inject_mul.
Qed.

Lemma calculateGrid_success_invariant_witness :
  let c := component 44 44 4 2 rectangular false in
  let c' := final (calculateGrid showFraction c) in
  calculateGrid showFraction c = Normal c'
  ∧ hasLayoutError c' = false
  ∧ ∃ R K : Z,
      rows c' = of_Z R ∧ columns c' = of_Z K
      ∧ (1 ≤ R)%Z ∧ (1 ≤ K)%Z
      ∧ length (placeholders c') = Z.to_nat (R * K).
Proof.
  intros c c'.
  assert (H1 : calculateGrid showFraction c = Normal c') by reflexivity.
  assert (H2 : hasLayoutError c' = false) by reflexivity.
  split; [exact H1|]. split; [exact H2|].
  exact (calculateGrid_success_invariant showFraction c c' H1 H2).
Defined.

Section Messages.

Variable show : num → string.

Lemma widthErrorMessage_ne_height (c c' : t) :
  widthErrorMessage show c ≠ heightErrorMessage show c'.
Proof. unfold widthErrorMessage, heightErrorMessage. simpl. discriminate. Qed.

Lemma widthErrorMessage_ne_noSpace (c c' : t) :
  widthErrorMessage show c ≠ noSpaceErrorMessage show c'.
Proof. unfold widthErrorMessage, noSpaceErrorMessage. simpl. discriminate. Qed.

Lemma heightErrorMessage_ne_noSpace (c c' : t) :
  heightErrorMessage show c ≠ noSpaceErrorMessage show c'.
Proof. unfold heightErrorMessage, noSpaceErrorMessage. simpl. discriminate. Qed.

Lemma errorMessages_nonempty (c : t) :
  widthErrorMessage show c ≠ ""
  ∧ heightErrorMessage show c ≠ ""
  ∧ noSpaceErrorMessage show c ≠ "".
Proof.
  unfold widthErrorMessage, heightErrorMessage, noSpaceErrorMessage.
  simpl. repeat split; discriminate.
Qed.

End Messages.

Lemma append_assoc (a b c : string) : (a +:+ b) +:+ c = a +:+ (b +:+ c).
Proof.
  induction a as [|ch a IH]; [done|].
  change (String ch ((a +:+ b) +:+ c) = String ch (a +:+ (b +:+ c))).
  by rewrite IH.
Qed.

Lemma placeGrid_error_fields (c : t) :
  hasLayoutError (final (placeGrid c)) = hasLayoutError c
  ∧ errorMessage (final (placeGrid c)) = errorMessage c.
Proof. unfold placeGrid. cbn zeta. by destruct (Array_indices _). Qed.

(** C3. The three failures of [calculateGrid] are tested in the order
    width, height, no space, and the first that matches is the one reported:
    the width message appears exactly when [pictureWidth + 2 * margin >
    paperWidthMm], the height message exactly when the width test passed and
    the effective height plus margins exceeds the paper height, the no-space
    message exactly when both passed and a count is not positive.  The three
    messages differ, so at most one kind is reported.  A reported failure
    leaves [rows = 0], [columns = 0] and no placeholders, and the width and
    height messages end with the required and the available extent. *)
Theorem calculateGrid_failures (show : num → string) (c : t) :
  let result := final (calculateGrid show c) in
  let paperW := (PaperSize.width (selectedPaperSize c) * Fin 10)%num in
  let paperH := (PaperSize.height (selectedPaperSize c) * Fin 10)%num in
  let requiredW := (pictureWidth c + Fin 2 * margins c)%num in
  let requiredH := (pictureHeightMm c + Fin 2 * margins c)%num in
  let widthExceeds := (requiredW >? paperW)%num in
  let heightExceeds := (requiredH >? paperH)%num in
  let noSpace :=
    (columns (countFitting c) <=? Fin 0)%num
    || (rows (countFitting c) <=? Fin 0)%num in
  (errorMessage result = widthErrorMessage show c ↔ widthExceeds = true)
  ∧ (errorMessage result = heightErrorMessage show c
     ↔ widthExceeds = false ∧ heightExceeds = true)
  ∧ (errorMessage result = noSpaceErrorMessage show c
     ↔ widthExceeds = false ∧ heightExceeds = false ∧ noSpace = true)
  ∧ (hasLayoutError result = true
     ↔ widthExceeds = true ∨ heightExceeds = true ∨ noSpace = true)
  ∧ (hasLayoutError result = true →
     calculateGrid show c = Normal result
     ∧ rows result = Fin 0 ∧ columns result = Fin 0
     ∧ placeholders result = [])
  ∧ (hasLayoutError result = false → errorMessage result = "")
  ∧ widthErrorMessage show c ≠ heightErrorMessage show c
  ∧ widthErrorMessage show c ≠ noSpaceErrorMessage show c
  ∧ heightErrorMessage show c ≠ noSpaceErrorMessage show c
  ∧ (∃ pre, widthErrorMessage show c =
            pre +:+ "Required: " +:+ show requiredW
            +:+ "mm, available: " +:+ show paperW +:+ "mm.")
  ∧ (∃ pre, heightErrorMessage show c =
            pre +:+ "Required: " +:+ show requiredH
            +:+ "mm, available: " +:+ show paperH +:+ "mm.").
Proof.
  intros result paperW paperH requiredW requiredH widthExceeds heightExceeds
    noSpace.
  pose proof (widthErrorMessage_ne_height show c c) as Nwh.
  pose proof (widthErrorMessage_ne_noSpace show c c) as Nwn.
  pose proof (heightErrorMessage_ne_noSpace show c c) as Nhn.
  destruct (errorMessages_nonempty show c) as (Ew & Eh & En).
  assert (Hres : result =
    if widthExceeds then
      layoutError (widthErrorMessage show c) (setError false "" c)
    else if heightExceeds then
      layoutError (heightErrorMessage show c) (setError false "" c)
    else if noSpace then
      layoutError (noSpaceErrorMessage show c)
        (countFitting (setError false "" c))
    else final (placeGrid (countFitting (setError false "" c)))).
  { subst result. rewrite calculateGrid_unfold. cbn zeta.
    change (minRequiredWidth c >? paperWidthMm c)%num with widthExceeds.
    change (minRequiredHeight c >? paperHeightMm c)%num with heightExceeds.
    change ((columns (countFitting (setError false "" c)) <=? Fin 0)%num
            || (rows (countFitting (setError false "" c)) <=? Fin 0)%num)
      with noSpace.
    by destruct widthExceeds, heightExceeds, noSpace. }
  assert (Hnorm : hasLayoutError result = true →
                  calculateGrid show c = Normal result).
  { subst result. destruct (calculateGrid show c) as [r|r] eqn:Hcg; [done|].
    simpl. intros Herr. exfalso.
    rewrite calculateGrid_unfold in Hcg. cbn zeta in Hcg.
    repeat match type of Hcg with
           | (if ?b then _ else _) = _ => destruct b; [discriminate|]
           end.
    pose proof (placeGrid_error_fields (countFitting (setError false "" c)))
      as [Hp _].
    rewrite Hcg in Hp. simpl in Hp. congruence. }
  destruct (placeGrid_error_fields (countFitting (setError false "" c)))
    as [Hpe Hpm].
  assert (Hsum : ∃ b m,
    hasLayoutError result = b ∧ errorMessage result = m
    ∧ (b = true → rows result = Fin 0 ∧ columns result = Fin 0
                  ∧ placeholders result = [])
    ∧ (b, m) =
        if widthExceeds then (true, widthErrorMessage show c)
        else if heightExceeds then (true, heightErrorMessage show c)
        else if noSpace then (true, noSpaceErrorMessage show c)
        else (false, "")).
  { rewrite Hres. destruct widthExceeds, heightExceeds, noSpace;
      eexists _, _; (split; [|split; [|split]]);
      try reflexivity; simpl; rewrite ?Hpe, ?Hpm; try done. }
  destruct Hsum as (b & m & Hb & Hm & Hzero & Hbm).
  rewrite Hb, Hm in *. clear Hres Hpe Hpm Hb Hm.
  clearbody result widthExceeds heightExceeds noSpace.
  split; [|split; [|split; [|split; [|split; [|split; [|split; [|split;
    [|split; [|split]]]]]]]]]; try done.
  - destruct widthExceeds, heightExceeds, noSpace; injection Hbm as -> ->;
      intuition congruence.
  - destruct widthExceeds, heightExceeds, noSpace; injection Hbm as -> ->;
      intuition congruence.
  - destruct widthExceeds, heightExceeds, noSpace; injection Hbm as -> ->;
      intuition congruence.
  - destruct widthExceeds, heightExceeds, noSpace; injection Hbm as -> ->;
      intuition congruence.
  - intros Hb. split; [by apply Hnorm|]. by apply Hzero.
  - destruct widthExceeds, heightExceeds, noSpace; injection Hbm as -> ->;
      congruence.
  - exists ("Error: Picture width (" +:+ show (pictureWidthMm c)
            +:+ "mm) plus margins (2×" +:+ show (marginMm c)
            +:+ "mm = " +:+ show (Fin 2 * marginMm c)%num
            +:+ "mm) exceeds paper width (" +:+ show (paperWidthMm c)
            +:+ "mm). ").
    unfold widthErrorMessage. rewrite !append_assoc. reflexivity.
  - exists ("Error: Picture height (" +:+ show (pictureHeightMm c)
            +:+ "mm) plus margins (2×" +:+ show (marginMm c)
            +:+ "mm = " +:+ show (Fin 2 * marginMm c)%num
            +:+ "mm) exceeds paper height (" +:+ show (paperHeightMm c)
            +:+ "mm). ").
    unfold heightErrorMessage. rewrite !append_assoc. reflexivity.
Qed.

(** ** One axis of the grid, over the rationals

    [avail] is the paper extent less both margins, [size] the picture extent,
    [x] the quotient whose floor is the count [Kq], and positions are
    [off + j * (size + sp)]. *)

Lemma Qhalf (a : Q) : a / 2 == a * (1 # 2).
Proof. reflexivity. Qed.

Section Axis.

Variables (avail size sp m x Kq : Q).

Let d : Q := size + sp.

Hypothesis Hx : x * d == avail + sp.
Hypothesis Hd : ¬ d == 0.
Hypothesis Hfit : size <= avail.
Hypothesis HK1 : 1 <= Kq.
Hypothesis HKx : Kq <= x.






End Axis.

(** ** Row and column of an index *)

Section Indexing.

Local Open Scope num_scope.






End Indexing.

(** ** Finite layouts *)

Section Finite.
Local Open Scope num_scope.

Lemma div_Fin_inv (a b : num) (r : Q) :
  a / b = Fin r →
  (∃ p q, a = Fin p ∧ b = Fin q ∧ ¬ (q == 0)%Q ∧ r = (p / q)%Q)
  ∨ (isFinite b = false ∧ r = 0%Q).
Proof.
  destruct a as [p| | |], b as [q| | |]; simpl; intros H; try discriminate;
    try (right; split; [done|]; by injection H).
  - destruct (Qeq_bool q 0) eqn:Hq.
    + by apply inf_of_not_Fin in H.
    + left. exists p, q. apply Qeq_bool_false in Hq. by injection H as <-.
  - by apply inf_of_not_Fin in H.
  - by apply inf_of_not_Fin in H.
Qed.

(** A count of at least one that is finite comes from a finite quotient
    with a non-zero divisor. *)
Lemma count_finite (a b : num) (k : Q) :
  floor (a / b) = Fin k → (Fin 1 <=? floor (a / b)) = true →
  ∃ n d, a = Fin n ∧ b = Fin d ∧ ¬ (d == 0)%Q
         ∧ floor (a / b) = of_Z (Qfloor (n / d))
         ∧ (1 ≤ Qfloor (n / d))%Z.
Proof.
  intros Hf Hle. rewrite Hf in Hle.
  destruct (floor_Fin_inv _ _ Hf) as (q & Hq & ->).
  apply le_Fin in Hle. change 1%Q with (inject_Z 1) in Hle.
  rewrite <- Zle_Qle in Hle.
  destruct (div_Fin_inv _ _ _ Hq) as [(n & d & -> & -> & Hd & ->)|[_ ->]].
  - exists n, d. rewrite div_Fin by done. by repeat split.
  - change (Qfloor 0) with 0%Z in Hle. lia.
Qed.

(** Counts of at least one whose product is within the array limit are
    finite. *)
Lemma counts_finite (k r : num) :
  (Fin 1 <=? k) = true → (Fin 1 <=? r) = true →
  (r * k <=? Fin (inject_Z (2 ^ 32 - 1))) = true →
  ∃ kq rq, k = Fin kq ∧ r = Fin rq.
Proof.
  destruct k as [kq| | |], r as [rq| | |]; simpl; try discriminate; eauto.
  - intros Hk _. apply Qle_bool_iff in Hk.
    assert (sgn kq = Gt) as ->; [|discriminate].
    unfold sgn. apply Qgt_alt. lra.
  - intros _ Hr. apply Qle_bool_iff in Hr.
    assert (sgn rq = Gt) as ->; [|discriminate].
    unfold sgn. apply Qgt_alt. lra.
Qed.
End Finite.

Section Layout.
Local Open Scope num_scope.
Variable show : num → string.

(** What the fit checks and the counts say about the fields. *)
Lemma layout_fields (c : t) :
  (Fin 1 <=? columns (countFitting c)) = true →
  (Fin 1 <=? rows (countFitting c)) = true →
  (rows (countFitting c) * columns (countFitting c)
     <=? Fin (inject_Z (2 ^ 32 - 1))) = true →
  ∃ W H pw eh m sp : Q,
    PaperSize.width (selectedPaperSize c) = Fin W
    ∧ PaperSize.height (selectedPaperSize c) = Fin H
    ∧ pictureWidth c = Fin pw ∧ pictureHeightMm c = Fin eh
    ∧ margins c = Fin m ∧ spacing c = Fin sp
    ∧ ¬ (pw + sp == 0)%Q ∧ ¬ (eh + sp == 0)%Q.
Proof.
  intros Hk Hr Hn.
  destruct (counts_finite _ _ Hk Hr Hn) as (kq & rq & Hkq & Hrq).
  change (columns (countFitting c))
    with (floor ((availableWidth c + spacingMm c)
                 / (pictureWidthMm c + spacingMm c))) in Hk, Hkq.
  change (rows (countFitting c))
    with (floor ((availableHeight c + spacingMm c)
                 / (pictureHeightMm c + spacingMm c))) in Hr, Hrq.
  destruct (count_finite _ _ _ Hkq Hk) as (n1 & d1 & Hn1 & Hd1 & Hz1 & _).
  destruct (count_finite _ _ _ Hrq Hr) as (n2 & d2 & Hn2 & Hd2 & Hz2 & _).
  destruct (add_Fin_inv _ _ _ Hn1) as (aw & sp & Haw & Hsp).
  destruct (add_Fin_inv _ _ _ Hd1) as (pw & sp' & Hpw & _).
  destruct (add_Fin_inv _ _ _ Hn2) as (ah & sp'' & Hah & _).
  destruct (add_Fin_inv _ _ _ Hd2) as (eh & sp''' & Heh & _).
  destruct (sub_Fin_inv _ _ _ Haw) as (W10 & m2 & HW10 & Hm2).
  destruct (sub_Fin_inv _ _ _ Hah) as (H10 & m2' & HH10 & _).
  destruct (mul_Fin_inv _ _ _ HW10) as (W & ? & HW & _).
  destruct (mul_Fin_inv _ _ _ HH10) as (H & ? & HH & _).
  destruct (mul_Fin_inv _ _ _ Hm2) as (? & m & _ & Hm).
  exists W, H, pw, eh, m, sp.
  unfold spacingMm, pictureWidthMm, marginMm in *.
  rewrite Hpw, Hsp in Hd1. rewrite Heh, Hsp in Hd2.
  simpl in Hd1, Hd2. injection Hd1 as <-. injection Hd2 as <-.
  by repeat split.
Qed.
End Layout.

(** The placeholder array holds the object made for each index, in order. *)
Lemma placeholders_lookup (g : t) (N n : nat) :
  (n < N)%nat →
  map (newPlaceholder g) (map Z.of_nat (seq 0 N)) !! n
    = Some (newPlaceholder g (Z.of_nat n)).
Proof. intros Hn. rewrite !list_lookup_fmap. by rewrite lookup_seq_lt. Qed.

Lemma placeholders_lookup_inv (g : t) (N n : nat) (p : PlaceholderState.t) :
  map (newPlaceholder g) (map Z.of_nat (seq 0 N)) !! n = Some p →
  (n < N)%nat ∧ p = newPlaceholder g (Z.of_nat n).
Proof.
  intros Hp. assert (n < N)%nat as Hn.
  { apply lookup_lt_Some in Hp. by rewrite !length_map, length_seq in Hp. }
  rewrite placeholders_lookup in Hp by done. split; [done|congruence].
Qed.


Section FiniteLayout.
Local Open Scope num_scope.

Variables (show : num → string) (c : t) (W H pw eh m sp : Q).

Hypothesis HW : PaperSize.width (selectedPaperSize c) = Fin W.
Hypothesis HH : PaperSize.height (selectedPaperSize c) = Fin H.
Hypothesis Hpw : pictureWidth c = Fin pw.
Hypothesis Heh : pictureHeightMm c = Fin eh.
Hypothesis Hm : margins c = Fin m.
Hypothesis Hsp : spacing c = Fin sp.
Hypothesis Hdx : ¬ (pw + sp == 0)%Q.
Hypothesis Hdy : ¬ (eh + sp == 0)%Q.

Let aw : Q := (W * 10 + - (2 * m))%Q.
Let ah : Q := (H * 10 + - (2 * m))%Q.
Let K : Z := Qfloor ((aw + sp) / (pw + sp)).
Let R : Z := Qfloor ((ah + sp) / (eh + sp)).
Let ox : Q :=
  (m + (aw + - (inject_Z K * pw + (inject_Z K + - 1) * sp)) / 2)%Q.
Let oy : Q :=
  (m + (ah + - (inject_Z R * eh + (inject_Z R + - 1) * sp)) / 2)%Q.

Lemma fin_columns : columns (countFitting c) = of_Z K.
Proof using HW Hpw Hm Hsp Hdx.
  change (columns (countFitting c))
    with (floor ((availableWidth c + spacingMm c)
                 / (pictureWidthMm c + spacingMm c))).
  unfold availableWidth, paperWidthMm, spacingMm, pictureWidthMm, marginMm.
  rewrite HW, Hpw, Hm, Hsp. simpl add. simpl sub. 
  rewrite div_Fin by done. reflexivity.
Qed.

Lemma fin_rows : rows (countFitting c) = of_Z R.
Proof using HH Heh Hm Hsp Hdy.
  change (rows (countFitting c))
    with (floor ((availableHeight c + spacingMm c)
                 / (pictureHeightMm c + spacingMm c))).
  unfold availableHeight, paperHeightMm, spacingMm, marginMm.
  rewrite HH, Heh, Hm, Hsp. simpl add. simpl sub.
  rewrite div_Fin by done. reflexivity.
Qed.


Let counted : t := countFitting (setError false "" c).
Let grid : t := setOffsets (Fin ox) (Fin oy) counted.
Let cells : list PlaceholderState.t :=
  map (newPlaceholder grid) (map Z.of_nat (seq 0 (Z.to_nat (R * K)))).

Hypothesis HfitW : (minRequiredWidth c >? paperWidthMm c) = false.
Hypothesis HfitH : (minRequiredHeight c >? paperHeightMm c) = false.
Hypothesis HK : (1 ≤ K)%Z.
Hypothesis HR : (1 ≤ R)%Z.
Hypothesis Hlimit : (R * K ≤ 2 ^ 32 - 1)%Z.

Lemma fin_placeGrid : placeGrid counted = Normal (setPlaceholders cells grid).
Proof using HW HH Hpw Heh Hm Hsp Hdx Hdy HK HR Hlimit.
  unfold placeGrid. cbn zeta.
  change (rows (setOffsets _ _ counted)) with (rows (countFitting c)).
  change (columns (setOffsets _ _ counted)) with (columns (countFitting c)).
  change (marginMm counted) with (margins c).
  change (availableWidth counted) with (availableWidth c).
  change (availableHeight counted) with (availableHeight c).
  change (totalGridWidth counted)
    with (columns (countFitting c) * pictureWidthMm c
          + (columns (countFitting c) - Fin 1) * spacingMm c).
  change (totalGridHeight counted)
    with (rows (countFitting c) * pictureHeightMm c
          + (rows (countFitting c) - Fin 1) * spacingMm c).
  rewrite fin_rows, fin_columns.
  unfold availableWidth, availableHeight, paperWidthMm, paperHeightMm,
    spacingMm, pictureWidthMm, marginMm.
  rewrite HW, HH, Hpw, Heh, Hm, Hsp. unfold of_Z.
  simpl add. simpl sub. simpl mul. simpl add.
  rewrite <- inject_Z_mult.
  change (Fin (inject_Z (R * K))) with (of_Z (R * K)).
  rewrite Array_indices_of_Z by lia. reflexivity.
Qed.

Lemma fin_calculateGrid :
  calculateGrid show c = Normal (setPlaceholders cells grid).
Proof using HW HH Hpw Heh Hm Hsp Hdx Hdy HK HR Hlimit HfitW HfitH.
  rewrite calculateGrid_unfold. cbn zeta. rewrite HfitW, HfitH.
  change (columns (countFitting (setError false "" c)))
    with (columns (countFitting c)).
  change (rows (countFitting (setError false "" c)))
    with (rows (countFitting c)).
  rewrite fin_rows, fin_columns.
  replace (of_Z K <=? Fin 0) with false.
  2:{ symmetry. apply le_Fin_false. change 0%Q with (inject_Z 0).
      rewrite <- Zlt_Qlt. lia. }
  replace (of_Z R <=? Fin 0) with false.
  2:{ symmetry. apply le_Fin_false. change 0%Q with (inject_Z 0).
      rewrite <- Zlt_Qlt. lia. }
  apply fin_placeGrid.
Qed.


Lemma fin_fit_width : (pw <= aw)%Q.
Proof using HW Hpw Hm HfitW.
  revert HfitW. unfold minRequiredWidth, paperWidthMm, pictureWidthMm, marginMm.
  rewrite HW, Hpw, Hm. intros Hf. apply gt_Fin_false in Hf.
  subst aw. lra.
Qed.

Lemma fin_fit_height : (eh <= ah)%Q.
Proof using HH Heh Hm HfitH.
  revert HfitH. unfold minRequiredHeight, paperHeightMm, marginMm.
  rewrite HH, Heh, Hm. intros Hf. apply gt_Fin_false in Hf.
  subst ah. lra.
Qed.








End FiniteLayout.




(** ** ImageFitter *)

Section Clamp.
Local Open Scope num_scope.

Lemma le_refl_not_NaN (a : num) : isNaN a = false → (a <=? a) = true.
Proof. destruct a; simpl; try done. intros _. apply Qle_bool_iff. lra. Qed.

Lemma le_max_l (a b : num) :
  isNaN a = false → isNaN b = false → (a <=? max a b) = true.
Proof.
  destruct a as [p| | |], b as [q| | |]; simpl; try done; intros _ _.
  - destruct (Qle_bool q p) eqn:H; simpl; apply Qle_bool_iff.
    + lra.
    + apply (le_Fin_false q p) in H. lra.
  - apply Qle_bool_iff. lra.
Qed.

(** Clamping into [lo, 0] for a bound [lo] that is not positive. *)
Lemma clamp_range (lo offset : num) :
  isNaN lo = false → isNaN offset = false → (lo <=? Fin 0) = true →
  (lo <=? max lo (min (Fin 0) offset)) = true
  ∧ (max lo (min (Fin 0) offset) <=? Fin 0) = true.
Proof.
  destruct lo as [l| | |], offset as [o| | |]; simpl; try done;
    intros _ _ Hlo; try apply Qle_bool_iff in Hlo;
    repeat match goal with
           | |- context [Qle_bool ?a ?b] =>
               let H := fresh "H" in
               destruct (Qle_bool a b) eqn:H; simpl;
               [apply Qle_bool_iff in H | apply (le_Fin_false a b) in H]
           end;
    try done; split; try reflexivity; try apply Qle_bool_iff; try lra.
Qed.

Lemma sub_not_NaN (a b : num) :
  isNaN a = false → isNaN b = false → (b <=? a) = false →
  isNaN (a - b) = false ∧ (a - b <=? Fin 0) = true.
Proof.
  destruct a as [p| | |], b as [q| | |]; simpl; try done; intros _ _ H.
  apply (le_Fin_false q p) in H. split; [done|]. apply Qle_bool_iff. lra.
Qed.
End Clamp.

(** C6. On either axis, with the placeholder extent [constrainOffset]
    computes for that axis (picture width or picture height times
    [mmToCssPx]) and the scaled image extent: when the scaled extent is at
    most the placeholder extent the result is the centred offset
    [(placeholderSize - scaledSize) / 2] whatever offset was requested;
    otherwise, for values that are not NaN, the result lies within
    [placeholderSize - scaledSize, 0]. *)
Theorem constrainOffset_range (c : t) (offset : num)
    (p : PlaceholderState.t) (axis : Axis) :
  let placeholderSize :=
    match axis with
    | x => (pictureWidth c * mmToCssPx)%num
    | y => (pictureHeight c * mmToCssPx)%num
    end in
  let scaledSize :=
    match axis with
    | x => (PlaceholderState.imageWidth p * PlaceholderState.scale p)%num
    | y => (PlaceholderState.imageHeight p * PlaceholderState.scale p)%num
    end in
  ((scaledSize <=? placeholderSize)%num = true →
   constrainOffset c offset p axis = ((placeholderSize - scaledSize) / Fin 2)%num)
  ∧ ((scaledSize <=? placeholderSize)%num = false →
     isNaN offset = false → isNaN scaledSize = false →
     isNaN placeholderSize = false →
     (placeholderSize - scaledSize <=? constrainOffset c offset p axis)%num = true
     ∧ (constrainOffset c offset p axis <=? Fin 0)%num = true).
Proof.
  intros placeholderSize scaledSize. split.
  - intros Hle. unfold constrainOffset. cbn zeta.
    destruct axis; subst placeholderSize scaledSize; cbn beta iota in *;
      by rewrite Hle.
  - intros Hle Ho Hs Hp. unfold constrainOffset. cbn zeta.
    destruct (sub_not_NaN _ _ Hp Hs Hle) as [Hn H0].
    destruct axis; subst placeholderSize scaledSize; cbn beta iota in *;
      rewrite Hle; by apply clamp_range.
Qed.

Lemma constrainOffset_range_witness :
  let c := component 25.4 25.4 4 2 rectangular false in
  let p := picture 96 96 0 0 2 in
  let placeholderSize := (pictureWidth c * mmToCssPx)%num in
  let scaledSize :=
    (PlaceholderState.imageWidth p * PlaceholderState.scale p)%num in
  (scaledSize <=? placeholderSize)%num = false
  ∧ isNaN (Fin 10) = false ∧ isNaN scaledSize = false
  ∧ isNaN placeholderSize = false
  ∧ (placeholderSize - scaledSize <=? constrainOffset c (Fin 10) p x)%num = true
  ∧ (constrainOffset c (Fin 10) p x <=? Fin 0)%num = true.
Proof.
  intros c p placeholderSize scaledSize.
  assert (H1 : (scaledSize <=? placeholderSize)%num = false) by reflexivity.
  assert (H2 : isNaN (Fin 10) = false) by reflexivity.
  assert (H3 : isNaN scaledSize = false) by reflexivity.
  assert (H4 : isNaN placeholderSize = false) by reflexivity.
  do 4 (split; [assumption|]).
  exact (proj2 (constrainOffset_range c (Fin 10) p x) H1 H2 H3 H4).
Defined.

Section Zoom.
Local Open Scope num_scope.

Lemma mul_not_NaN (a : num) (q : Q) :
  isNaN a = false → (0 < q)%Q → isNaN (a * Fin q) = false.
Proof.
  destruct a; simpl; try done; intros _ Hq;
    assert (sgn q = Gt) as -> by (unfold sgn; by apply Qgt_alt); done.
Qed.


Lemma onWheel_scale_eq (c : t) (event : WheelEvent.t) (p : PlaceholderState.t) :
  PlaceholderState.hasImage p = true →
  PlaceholderState.scale (onWheel c event p)
  = if allowWhitespace c
    then PlaceholderState.scale p * zoomFactor event
    else max (calculateMinimumScale c p)
             (PlaceholderState.scale p * zoomFactor event).
Proof.
  intros Hi. unfold onWheel. rewrite Hi. cbn zeta.
  by destruct (allowWhitespace c).
Qed.
End Zoom.

(** C7. A wheel step on a placeholder with an image multiplies the scale by
    1.1 when [deltaY < 0] and by 1/1.1 otherwise; when whitespace is not
    allowed the result is the larger of that product and the minimum cover
    scale [max(placeholderW / imageW, placeholderH / imageH)], so it is never
    below the minimum cover scale (for values that are not NaN). *)
Theorem onWheel_scale (c : t) (event : WheelEvent.t) (p : PlaceholderState.t) :
  PlaceholderState.hasImage p = true →
  let factor :=
    if (WheelEvent.deltaY event <? Fin 0)%num then Fin 1.1
    else (Fin 1 / Fin 1.1)%num in
  let effectiveHeight :=
    match placeholderShape c with
    | round => pictureWidth c
    | rectangular => pictureHeight c
    end in
  let minimumCoverScale :=
    max (pictureWidth c * mmToCssPx / PlaceholderState.imageWidth p)%num
        (effectiveHeight * mmToCssPx / PlaceholderState.imageHeight p)%num in
  let newScale := PlaceholderState.scale (onWheel c event p) in
  (allowWhitespace c = true →
   newScale = (PlaceholderState.scale p * factor)%num)
  ∧ (allowWhitespace c = false →
     newScale = max minimumCoverScale (PlaceholderState.scale p * factor)%num)
  ∧ (allowWhitespace c = false →
     isNaN minimumCoverScale = false →
     isNaN (PlaceholderState.scale p) = false →
     (minimumCoverScale <=? newScale)%num = true).
Proof.
  intros Hi factor effectiveHeight minimumCoverScale newScale.
  assert (Hmin : calculateMinimumScale c p = minimumCoverScale).
  { unfold calculateMinimumScale. subst minimumCoverScale effectiveHeight.
    by destruct (placeholderShape c). }
  assert (Hns : newScale =
                if allowWhitespace c
                then (PlaceholderState.scale p * factor)%num
                else max minimumCoverScale
                         (PlaceholderState.scale p * factor)%num).
  { subst newScale. rewrite onWheel_scale_eq by done. by rewrite Hmin. }
  split; [|split].
  - intros Hw. by rewrite Hns, Hw.
  - intros Hw. by rewrite Hns, Hw.
  - intros Hw Hm Hs. rewrite Hns, Hw. apply le_max_l; [done|].
    subst factor. destruct (_ <? _)%num.
    + by apply mul_not_NaN.
    + by apply (mul_not_NaN _ (1 / 1.1)).
Qed.

Lemma onWheel_scale_witness :
  let c := component 25.4 25.4 4 2 rectangular false in
  let p := picture 96 96 0 0 1 in
  let event := wheelAt 96 96 1 in
  PlaceholderState.hasImage p = true
  ∧ allowWhitespace c = false
  ∧ (PlaceholderState.scale (onWheel c event p) ≃ Fin 1)%num
  ∧ (calculateMinimumScale c p
       <=? PlaceholderState.scale (onWheel c event p))%num = true.
Proof.
  intros c p event.
  assert (H1 : PlaceholderState.hasImage p = true) by reflexivity.
  assert (H2 : allowWhitespace c = false) by reflexivity.
  split; [exact H1|]. split; [exact H2|].
  destruct (onWheel_scale c event p H1) as (_ & Heq & Hle).
  split.
  - rewrite (Heq H2). vm_compute. reflexivity.
  - apply (Hle H2); reflexivity.
Defined.

Section Anchor.
Local Open Scope num_scope.

(** [constrainOffset] reads the image size and the scale of the placeholder
    only, not its offsets. *)
Lemma constrainOffset_setTransform (c : t) (v : num)
    (p : PlaceholderState.t) (ox oy : num) (axis : Axis) :
  constrainOffset c v (PlaceholderState.setTransform p ox oy (PlaceholderState.scale p)) axis
  = constrainOffset c v p axis.
Proof. reflexivity. Qed.


End Anchor.




(** C5 (the source departs from it). A round placeholder of diameter 50 mm
    whose unused picture height is still 44 mm, an image of 1000 x 1000
    pixels at exactly the minimum cover scale, dragged upwards by 100 pixels:
    [constrainOffset] measures the y axis against 44 mm, lets the image rise
    by 6 mm, and its lower edge ends above the lower edge of the
    placeholder. *)
Theorem constrainOffset_round_gap :
  let c := component 50 44 4 2 round false in
  let p := picture 1000 1000 0 0 (50 * (96 / 25.4) / 1000) in
  let p' := constrainBoth c (Fin 0) (Fin (-100)) p in
  allowWhitespace c = false
  ∧ (calculateMinimumScale c p <=? PlaceholderState.scale p)%num = true
  ∧ (PlaceholderState.offsetY p' ≃ Fin ((44 - 50) * (96 / 25.4)))%num
  ∧ (PlaceholderState.offsetY p'
     + PlaceholderState.imageHeight p' * PlaceholderState.scale p'
     <? placeholderHeightPx c)%num = true
  ∧ covers c p' = false.
Proof. vm_compute. repeat split; try done. Qed.

Section Coverage.
Local Open Scope num_scope.


Lemma Qdiv_le_inv (a b c : Q) : (0 < b)%Q → (a / b <= c)%Q → (a <= b * c)%Q.
Proof.
  intros Hb H. assert (a / b * b == a)%Q as He by (field; lra).
  assert (a / b * b <= c * b)%Q by (apply Qmult_le_compat_r; lra). lra.
Qed.


End Coverage.

(** ** Settings *)

(** C9. [loadSettings] merges the stored record over the defaults field by
    field: when nothing is stored the result is exactly the defaults; for a
    stored record every key it holds has its stored value and every other key
    its default; each of the nine settings has a default, hence a value in
    the result. *)
Theorem loadSettings_merge (JSON_parse : string → option jsval)
    (ls : LocalStorage) :
  (getItem ls StorageService.SETTINGS_KEY = Some None →
   StorageService.loadSettings JSON_parse ls = StorageService.DEFAULT_SETTINGS)
  ∧ (∀ (stored : string) (record : gmap string jsval),
     getItem ls StorageService.SETTINGS_KEY = Some (Some stored) →
     stored ≠ "" →
     JSON_parse stored = Some (JObj record) →
     ∀ key : string,
       StorageService.loadSettings JSON_parse ls !! key
       = match record !! key with
         | Some value => Some value
         | None => StorageService.DEFAULT_SETTINGS !! key
         end)
  ∧ (∀ key : string,
     key ∈ StorageService.settingKeys →
     is_Some (StorageService.DEFAULT_SETTINGS !! key)
     ∧ is_Some (StorageService.loadSettings JSON_parse ls !! key))
  ∧ (∀ key : string,
     key ∉ StorageService.settingKeys →
     StorageService.DEFAULT_SETTINGS !! key = None).
Proof.
  assert (Hdef : ∀ key : string,
           key ∈ StorageService.settingKeys →
           is_Some (StorageService.DEFAULT_SETTINGS !! key)).
  { intros key Hk. unfold StorageService.settingKeys in Hk.
    repeat (apply elem_of_cons in Hk as [->|Hk]; [by eexists|]).
    by apply elem_of_nil in Hk. }
  split; [|split; [|split]].
  - intros Hg. unfold StorageService.loadSettings. rewrite Hg.
    unfold spread2. apply (left_id_L ∅ (∪)).
  - intros stored record Hg Hne Hp key.
    unfold StorageService.loadSettings. rewrite Hg.
    rewrite bool_decide_eq_false_2 by done. rewrite Hp.
    unfold spread2, ownProps. rewrite lookup_union.
    destruct (record !! key), (StorageService.DEFAULT_SETTINGS !! key); done.
  - intros key Hk. split; [by apply Hdef|].
    unfold StorageService.loadSettings.
    repeat case_match; unfold spread2; apply lookup_union_is_Some; right;
      by apply Hdef.
  - intros key Hk. unfold StorageService.DEFAULT_SETTINGS.
    apply not_elem_of_list_to_map_1. exact Hk.
Qed.

Lemma loadSettings_merge_witness :
  getItem emptyStorage StorageService.SETTINGS_KEY = Some None
  ∧ StorageService.loadSettings sampleParse emptyStorage
    = StorageService.DEFAULT_SETTINGS
  ∧ getItem (storageWith storedText) StorageService.SETTINGS_KEY
    = Some (Some storedText)
  ∧ storedText ≠ ""
  ∧ sampleParse storedText = Some (JObj {[ "spacing" := JNum (Fin 5) ]})
  ∧ StorageService.loadSettings sampleParse (storageWith storedText)
      !! "spacing" = Some (JNum (Fin 5))
  ∧ StorageService.loadSettings sampleParse (storageWith storedText)
      !! "margins" = Some (JNum (Fin 4)).
Proof.
  assert (H1 : getItem emptyStorage StorageService.SETTINGS_KEY = Some None)
    by reflexivity.
  assert (H2 : getItem (storageWith storedText) StorageService.SETTINGS_KEY
               = Some (Some storedText)) by reflexivity.
  assert (H3 : storedText ≠ "") by discriminate.
  assert (H4 : sampleParse storedText
               = Some (JObj {[ "spacing" := JNum (Fin 5) ]})) by reflexivity.
  split; [exact H1|].
  split; [exact (proj1 (loadSettings_merge sampleParse emptyStorage) H1)|].
  split; [exact H2|]. split; [exact H3|]. split; [exact H4|].
  pose proof (proj1 (proj2 (loadSettings_merge sampleParse
                              (storageWith storedText)))
                storedText _ H2 H3 H4) as Hm.
  split.
  - exact (Hm "spacing").
  - exact (Hm "margins").
Defined.

(** C10. [restoreSettings] always returns and sets the paper size selection,
    picture width and height, margins, spacing, [allowWhitespace],
    [showCropMarks] and the placeholder shape to their defaults while the
    dark mode preference stays what it was, in the component and in the
    record it hands to the storage service, which differs from the defaults
    in [isDarkMode] only; the dark mode entry of the storage is untouched. *)
Theorem restoreSettings_resets (show : num → string)
    (JSON_stringify : jsval → string) (c : t) :
  ∃ c' : t,
    restoreSettings show JSON_stringify c = Normal c'
    ∧ selectedPaperSizeIndex c' = Fin 0
    ∧ selectedPaperSize c' = paper10x15
    ∧ pictureWidth c' = Fin 44 ∧ pictureHeight c' = Fin 44
    ∧ margins c' = Fin 4 ∧ spacing c' = Fin 2
    ∧ allowWhitespace c' = false ∧ showCropMarks c' = true
    ∧ placeholderShape c' = rectangular
    ∧ isDarkMode c' = isDarkMode c
    ∧ settingsRecord c'
      = <["isDarkMode" := JBool (isDarkMode c)]> StorageService.DEFAULT_SETTINGS
    ∧ storage c'
      = StorageService.saveSettings JSON_stringify (storage c)
          (settingsRecord c')
    ∧ (writable (storage c) = true →
       items (storage c') !! StorageService.SETTINGS_KEY
       = Some (JSON_stringify (JObj (settingsRecord c'))))
    ∧ items (storage c') !! StorageService.DARK_MODE_KEY
      = items (storage c) !! StorageService.DARK_MODE_KEY.
Proof.
  unfold restoreSettings. cbn zeta.
  destruct (calculateGrid show (resetToDefaults c)) as [g|g] eqn:Hg.
  2:{ exfalso. vm_compute in Hg. discriminate. }
  assert (Hfields : storage g = storage c ∧ isDarkMode g = isDarkMode c
           ∧ selectedPaperSizeIndex g = Fin 0
           ∧ selectedPaperSize g = paper10x15
           ∧ pictureWidth g = Fin 44 ∧ pictureHeight g = Fin 44
           ∧ margins g = Fin 4 ∧ spacing g = Fin 2
           ∧ allowWhitespace g = false ∧ showCropMarks g = true
           ∧ placeholderShape g = rectangular).
  { vm_compute in Hg. injection Hg as <-. by repeat split. }
  destruct Hfields as (Hst & Hdm & Hix & Hps & Hpw & Hph & Hm & Hsp & Haw
                       & Hcm & Hsh).
  eexists. split; [reflexivity|].
  unfold updatePrintStyles, saveSettings.
  cbn [selectedPaperSizeIndex selectedPaperSize pictureWidth pictureHeight
       margins spacing allowWhitespace showCropMarks placeholderShape
       isDarkMode storage setStorage].
  do 10 (split; [assumption|]).
  assert (Hrec : settingsRecord g
    = <["isDarkMode" := JBool (isDarkMode c)]> StorageService.DEFAULT_SETTINGS).
  { unfold settingsRecord. rewrite Hix, Hpw, Hph, Hm, Hsp, Haw, Hcm, Hdm, Hsh.
    apply map_eq. intros k. destruct (isDarkMode c); reflexivity. }
  split; [exact Hrec|]. split; [by rewrite Hst|].
  unfold StorageService.saveSettings, setItem. rewrite Hst.
  split.
  - intros ->. cbn. by rewrite lookup_insert_eq.
  - destruct (writable (storage c)); cbn; [|done].
    by rewrite lookup_insert_ne.
Qed.

(** ** Scenarios of the specification, evaluated *)

(** Paper 100 x 150 mm, picture 44 x 44 mm, margin 4 mm, spacing 2 mm:
    2 columns, 3 rows, 6 cells, no error. *)
Example scenario_six_cells :
  let r := final (calculateGrid showFraction
                    (component 44 44 4 2 rectangular false)) in
  hasLayoutError r = false ∧ columns r = Fin 2 ∧ rows r = Fin 3
  ∧ length (placeholders r) = 6%nat.
Proof. vm_compute. repeat split. Qed.

(** Picture 96 x 44 mm with a 4 mm margin needs 104 mm of the 100 mm. *)
Example scenario_width_exceeds :
  let c := component 96 44 4 2 rectangular false in
  let r := final (calculateGrid showFraction c) in
  hasLayoutError r = true
  ∧ errorMessage r = widthErrorMessage showFraction c
  ∧ placeholders r = [].
Proof. vm_compute. repeat split. Qed.

(** An image of 2000 x 1000 pixels in a placeholder of 400 x 400 pixels:
    scale 0.4 to cover, 0.2 to contain. *)
Example scenario_fit_scales :
  let mm := 400 * (25.4 / 96) in
  let p := picture 2000 1000 0 0 1 in
  (PlaceholderState.scale
     (fitImageToPlaceholder (component mm mm 4 2 rectangular false) p)
   ≃ Fin 0.4)%num
  ∧ (PlaceholderState.scale
       (fitImageToPlaceholder (component mm mm 4 2 rectangular true) p)
     ≃ Fin 0.2)%num.
Proof. vm_compute. split; reflexivity. Qed.

(** Pictures of a thousandth of a millimetre: 92000 columns and 142000 rows
    are more cells than an array can have, and [Array] throws. *)
Example scenario_array_limit :
  let c := component 0.001 0.001 4 0 rectangular false in
  (Fin 1 <=? columns (countFitting c))%num = true
  ∧ (Fin 1 <=? rows (countFitting c))%num = true
  ∧ ∃ c', calculateGrid showFraction c = RangeError c'
          ∧ placeholders c' = [].
Proof. vm_compute. repeat split. eexists. split; reflexivity. Qed.

(** A picture without extent and no spacing divide by zero: the counts are
    infinite and [Array] throws as well. *)
Example scenario_zero_step :
  let c := component 0 0 4 0 rectangular false in
  columns (countFitting c) = PInf
  ∧ ∃ c', calculateGrid showFraction c = RangeError c'.
Proof. vm_compute. split; [reflexivity|]. eexists. reflexivity. Qed.

(** Spacing -50 mm passes both fit checks and ends in the no-space branch. *)
Example scenario_no_space :
  let c := component 44 44 4 (-50) rectangular false in
  let r := final (calculateGrid showFraction c) in
  columns (countFitting c) = Fin (-7)
  ∧ errorMessage r = noSpaceErrorMessage showFraction c
  ∧ columns r = Fin 0 ∧ rows r = Fin 0.
Proof. vm_compute. repeat split. Qed.

(** * Further properties of the code *)

(** ** More on the grid *)

Section GridMore.

Variable show : num → string.

(** A return without layout error passed all three tests and the array
    limit. *)
Lemma calculateGrid_success_conditions (c c' : t) :
  calculateGrid show c = Normal c' → hasLayoutError c' = false →
  (minRequiredWidth c >? paperWidthMm c)%num = false
  ∧ (minRequiredHeight c >? paperHeightMm c)%num = false
  ∧ (Fin 1 <=? columns (countFitting c))%num = true
  ∧ (Fin 1 <=? rows (countFitting c))%num = true
  ∧ (rows (countFitting c) * columns (countFitting c)
       <=? Fin (inject_Z (2 ^ 32 - 1)))%num = true
  ∧ placeGrid (countFitting (setError false "" c)) = Normal c'.
Proof.
  rewrite calculateGrid_unfold. cbn zeta.
  destruct (minRequiredWidth c >? paperWidthMm c)%num;
    [intros [= <-]; discriminate|].
  destruct (minRequiredHeight c >? paperHeightMm c)%num;
    [intros [= <-]; discriminate|].
  set (c1 := countFitting (setError false "" c)).
  destruct (orb _ _) eqn:Hz; [intros [= <-]; discriminate|].
  apply orb_false_iff in Hz as [Hk Hr].
  intros Hpg _. split; [done|]. split; [done|].
  change (columns c1) with (columns (countFitting c)) in Hk.
  change (rows c1) with (rows (countFitting c)) in Hr.
  assert (Ha : ∃ l, Array_indices
                      (rows (countFitting c) * columns (countFitting c))%num
                    = Some l).
  { revert Hpg. unfold placeGrid. cbn zeta.
    change (rows (setOffsets _ _ c1)) with (rows (countFitting c)).
    change (columns (setOffsets _ _ c1)) with (columns (countFitting c)).
    destruct (Array_indices _); [eauto|discriminate]. }
  destruct Ha as (l & Ha).
  apply Array_indices_Some in Ha as (q & Hq & Hint & [_ Hub] & _).
  destruct (mul_Fin_inv _ _ _ Hq) as (pr & pk & Hpr & Hpk).
  change (rows (countFitting c))
    with (floor ((availableHeight c + spacingMm c)
                 / (pictureHeightMm c + spacingMm c))%num) in *.
  change (columns (countFitting c))
    with (floor ((availableWidth c + spacingMm c)
                 / (pictureWidthMm c + spacingMm c))%num) in *.
  destruct (floor_positive _ _ Hpr Hr) as (R & HR & HR1).
  destruct (floor_positive _ _ Hpk Hk) as (K & HK & HK1).
  rewrite HR, HK in Hq |- *. cbn [mul of_Z] in Hq. injection Hq as <-.
  rewrite Qfloor_inject_mul in Hub.
  repeat split; try done; apply le_Fin.
  - change 1%Q with (inject_Z 1). rewrite <- Zle_Qle. lia.
  - change 1%Q with (inject_Z 1). rewrite <- Zle_Qle. lia.
  - rewrite <- inject_Z_mult, <- Zle_Qle. lia.
Qed.


End GridMore.



Section SuccessForm.

Local Open Scope num_scope.

Variable show : num → string.

(** The values behind a return without layout error: finite measures,
    integer counts of at least one, and the offsets as computed. *)
Lemma calculateGrid_success_values (c c' : t) :
  calculateGrid show c = Normal c' → hasLayoutError c' = false →
  ∃ (W H pw eh m sp : Q) (K R : Z),
    paperWidthMm c' = Fin (W * 10) ∧ paperHeightMm c' = Fin (H * 10)
    ∧ pictureWidthMm c' = Fin pw ∧ pictureHeightMm c' = Fin eh
    ∧ marginMm c' = Fin m ∧ spacingMm c' = Fin sp
    ∧ columns c' = of_Z K ∧ rows c' = of_Z R
    ∧ offsetX c'
      = Fin (m + (W * 10 + - (2 * m)
                  + - (inject_Z K * pw + (inject_Z K + - 1) * sp)) / 2)
    ∧ offsetY c'
      = Fin (m + (H * 10 + - (2 * m)
                  + - (inject_Z R * eh + (inject_Z R + - 1) * sp)) / 2)
    ∧ K = Qfloor ((W * 10 + - (2 * m) + sp) / (pw + sp))
    ∧ R = Qfloor ((H * 10 + - (2 * m) + sp) / (eh + sp))
    ∧ ¬ (pw + sp == 0)%Q ∧ ¬ (eh + sp == 0)%Q
    ∧ (1 ≤ K)%Z ∧ (1 ≤ R)%Z
    ∧ (pw <= W * 10 + - (2 * m))%Q ∧ (eh <= H * 10 + - (2 * m))%Q.
Proof.
  intros Hcg Herr.
  destruct (calculateGrid_success_conditions show c c' Hcg Herr)
    as (HfitW & HfitH & Hk & Hr & Hn & _).
  destruct (layout_fields c Hk Hr Hn)
    as (W & H & pw & eh & m & sp & HW & HH & Hpw & Heh & Hm & Hsp & Hdx & Hdy).
  pose proof (fin_columns c W pw m sp HW Hpw Hm Hsp Hdx) as HK.
  pose proof (fin_rows c H eh m sp HH Heh Hm Hsp Hdy) as HR.
  pose proof (fin_fit_width c W pw m HW Hpw Hm HfitW) as Fw.
  pose proof (fin_fit_height c H eh m HH Heh Hm HfitH) as Fh.
  set (K := Qfloor ((W * 10 + - (2 * m) + sp) / (pw + sp))) in *.
  set (R := Qfloor ((H * 10 + - (2 * m) + sp) / (eh + sp))) in *.
  rewrite HK in Hk. rewrite HR in Hr. rewrite HK, HR in Hn.
  apply le_Fin in Hk, Hr, Hn.
  change 1%Q with (inject_Z 1) in Hk, Hr.
  rewrite <- Zle_Qle in Hk, Hr. rewrite <- inject_Z_mult, <- Zle_Qle in Hn.
  pose proof (fin_calculateGrid show c W H pw eh m sp HW HH Hpw Heh Hm Hsp
                Hdx Hdy HfitW HfitH Hk Hr Hn) as Hexp.
  fold K R in Hexp. rewrite Hcg in Hexp. injection Hexp as ->.
  exists W, H, pw, eh, m, sp, K, R.
  split; [unfold paperWidthMm; cbn [selectedPaperSize setPlaceholders];
          change (selectedPaperSize _) with (selectedPaperSize c);
          by rewrite HW|].
  split; [unfold paperHeightMm;
          change (selectedPaperSize _) with (selectedPaperSize c);
          by rewrite HH|].
  split; [exact Hpw|]. split; [exact Heh|]. split; [exact Hm|].
  split; [exact Hsp|]. split; [exact HK|]. split; [exact HR|].
  by repeat split.
Qed.

End SuccessForm.



(** X3. A grid that was laid out is centred: the gap between the left margin and
    the grid equals the gap between the grid and the right margin, and
    likewise from top to bottom. *)
Theorem calculateGrid_centred (show : num → string) (c c' : t) :
  calculateGrid show c = Normal c' → hasLayoutError c' = false →
  (offsetX c' - marginMm c'
   ≃ (paperWidthMm c' - marginMm c') - (offsetX c' + totalGridWidth c'))%num
  ∧ (offsetY c' - marginMm c'
     ≃ (paperHeightMm c' - marginMm c')
       - (offsetY c' + totalGridHeight c'))%num.
Proof.
  intros Hcg Herr.
  destruct (calculateGrid_success_values show c c' Hcg Herr)
    as (W & H & pw & eh & m & sp & K & R & HW & HH & Hpw & Heh & Hm & Hsp
        & HK & HR & Hox & Hoy & _).
  unfold totalGridWidth, totalGridHeight.
  rewrite HW, HH, Hpw, Heh, Hm, Hsp, HK, HR, Hox, Hoy. unfold of_Z.
  cbn [add sub mul neg same].
  split; rewrite !Qhalf; ring.
Qed.

Lemma calculateGrid_centred_witness :
  let c := component 40 44 4 2 rectangular false in
  let c' := final (calculateGrid showFraction c) in
  calculateGrid showFraction c = Normal c' ∧ hasLayoutError c' = false
  ∧ (offsetX c' ≃ Fin 9)%num
  ∧ (offsetX c' - marginMm c'
     ≃ (paperWidthMm c' - marginMm c') - (offsetX c' + totalGridWidth c'))%num.
Proof.
  intros c c'.
  assert (H1 : calculateGrid showFraction c = Normal c') by reflexivity.
  assert (H2 : hasLayoutError c' = false) by reflexivity.
  split; [exact H1|]. split; [exact H2|]. split; [reflexivity|].
  exact (proj1 (calculateGrid_centred showFraction c c' H1 H2)).
Defined.

Section Fresh.

(** Every placeholder of a grid [calculateGrid] returns comes from
    [newPlaceholder] at its position. *)
Lemma calculateGrid_placeholder_fresh (show : num → string) (c c' : t)
    (i : nat) (p : PlaceholderState.t) :
  calculateGrid show c = Normal c' →
  placeholders c' !! i = Some p →
  ∃ g, p = newPlaceholder g (Z.of_nat i).
Proof.
  rewrite calculateGrid_unfold. cbn zeta.
  assert (Hnil : ∀ l : list PlaceholderState.t,
            l = [] → l !! i = Some p → False).
  { intros l ->. by rewrite lookup_nil. }
  destruct (_ >? _)%num;
    [intros [= <-] Hp; exfalso; by apply (Hnil _ eq_refl) in Hp|].
  destruct (_ >? _)%num;
    [intros [= <-] Hp; exfalso; by apply (Hnil _ eq_refl) in Hp|].
  destruct (_ || _);
    [intros [= <-] Hp; exfalso; by apply (Hnil _ eq_refl) in Hp|].
  unfold placeGrid. cbn zeta.
  destruct (Array_indices _) as [l|] eqn:Ha; [|discriminate].
  intros [= <-]. cbn [placeholders setPlaceholders].
  apply Array_indices_Some in Ha as (q & _ & _ & _ & ->).
  intros Hp. apply placeholders_lookup_inv in Hp as [_ ->].
  by eexists.
Qed.

Lemma clearImage_loadImage (c : t) (result : option string)
    (width height : num) (p : PlaceholderState.t) :
  clearImage (loadImage_onload c result width height p) = clearImage p.
Proof.
  unfold loadImage_onload, fitImageToPlaceholder.
  cbn [PlaceholderState.imageWidth PlaceholderState.imageHeight].
  by destruct (_ || _).
Qed.

Lemma setPlaceholders_same (c : t) : setPlaceholders (placeholders c) c = c.
Proof. by destruct c. Qed.

End Fresh.

(** X4. Every placeholder of a grid [calculateGrid] returns is a new, empty one
    numbered by its position: images loaded before are gone. *)
Theorem calculateGrid_new_placeholders (show : num → string) (c c' : t)
    (i : nat) (p : PlaceholderState.t) :
  calculateGrid show c = Normal c' →
  placeholders c' !! i = Some p →
  PlaceholderState.id p = of_Z (Z.of_nat i)
  ∧ PlaceholderState.imageData p = None
  ∧ PlaceholderState.hasImage p = false
  ∧ PlaceholderState.offsetX p = Fin 0 ∧ PlaceholderState.offsetY p = Fin 0
  ∧ PlaceholderState.scale p = Fin 1
  ∧ PlaceholderState.imageWidth p = Fin 0
  ∧ PlaceholderState.imageHeight p = Fin 0
  ∧ PlaceholderState.isDragOver p = false
  ∧ PlaceholderState.isDraggingImage p = false.
Proof.
  intros Hg Hp.
  destruct (calculateGrid_placeholder_fresh show c c' i p Hg Hp) as [g ->].
  by repeat split.
Qed.

Lemma calculateGrid_new_placeholders_witness :
  let c :=
    setPlaceholders [picture 96 96 0 0 2]
      (component 44 44 4 2 rectangular false) in
  let c' := final (calculateGrid showFraction c) in
  ∃ p, calculateGrid showFraction c = Normal c'
       ∧ placeholders c' !! 0%nat = Some p
       ∧ PlaceholderState.hasImage p = false.
Proof.
  intros c c'.
  assert (H1 : calculateGrid showFraction c = Normal c') by reflexivity.
  eexists. split; [exact H1|]. split; [reflexivity|].
  pose proof (calculateGrid_new_placeholders showFraction c c' 0%nat _ H1
                eq_refl) as (_ & _ & H & _).
  exact H.
Defined.

(** X5. Running [calculateGrid] again on what it left gives the same outcome:
    it reads nothing that it writes, except a count it has overwritten
    before. *)
Theorem calculateGrid_idempotent (show : num → string) (c : t) :
  calculateGrid show (final (calculateGrid show c)) = calculateGrid show c.
Proof.
  remember (calculateGrid show c) as r eqn:Hr.
  rewrite calculateGrid_unfold in Hr. cbn zeta in Hr.
  rewrite calculateGrid_unfold. cbn zeta.
  destruct (minRequiredWidth c >? paperWidthMm c)%num eqn:E1.
  { subst r. cbn [final].
    change (minRequiredWidth (layoutError _ _)) with (minRequiredWidth c).
    change (paperWidthMm (layoutError _ _)) with (paperWidthMm c).
    rewrite E1. reflexivity. }
  destruct (minRequiredHeight c >? paperHeightMm c)%num eqn:E2.
  { subst r. cbn [final].
    change (minRequiredWidth (layoutError _ _)) with (minRequiredWidth c).
    change (paperWidthMm (layoutError _ _)) with (paperWidthMm c).
    change (minRequiredHeight (layoutError _ _)) with (minRequiredHeight c).
    change (paperHeightMm (layoutError _ _)) with (paperHeightMm c).
    rewrite E1, E2. reflexivity. }
  set (c1 := countFitting (setError false "" c)) in *.
  destruct ((columns c1 <=? Fin 0)%num || (rows c1 <=? Fin 0)%num) eqn:E3.
  { subst r. cbn [final].
    change (minRequiredWidth (layoutError _ _)) with (minRequiredWidth c).
    change (paperWidthMm (layoutError _ _)) with (paperWidthMm c).
    change (minRequiredHeight (layoutError _ _)) with (minRequiredHeight c).
    change (paperHeightMm (layoutError _ _)) with (paperHeightMm c).
    rewrite E1, E2.
    change (columns (countFitting (setError false "" (layoutError _ _))))
      with (columns c1).
    change (rows (countFitting (setError false "" (layoutError _ _))))
      with (rows c1).
    rewrite E3. reflexivity. }
  unfold placeGrid in Hr. cbn zeta in Hr.
  set (c2 := setOffsets _ _ c1) in *.
  destruct (Array_indices (rows c2 * columns c2)%num) as [l|] eqn:E4;
    subst r; cbn [final].
  - change (minRequiredWidth (setPlaceholders _ _)) with (minRequiredWidth c).
    change (paperWidthMm (setPlaceholders _ _)) with (paperWidthMm c).
    change (minRequiredHeight (setPlaceholders _ _)) with (minRequiredHeight c).
    change (paperHeightMm (setPlaceholders _ _)) with (paperHeightMm c).
    rewrite E1, E2.
    change (columns (countFitting (setError false "" (setPlaceholders _ _))))
      with (columns c1).
    change (rows (countFitting (setError false "" (setPlaceholders _ _))))
      with (rows c1).
    rewrite E3. unfold placeGrid. cbn zeta.
    change (rows (setOffsets _ _ _)) with (rows c2).
    change (columns (setOffsets _ _ _)) with (columns c2).
    rewrite E4. reflexivity.
  - change (minRequiredWidth c2) with (minRequiredWidth c).
    change (paperWidthMm c2) with (paperWidthMm c).
    change (minRequiredHeight c2) with (minRequiredHeight c).
    change (paperHeightMm c2) with (paperHeightMm c).
    rewrite E1, E2.
    change (columns (countFitting (setError false "" c2))) with (columns c1).
    change (rows (countFitting (setError false "" c2))) with (rows c1).
    rewrite E3. unfold placeGrid. cbn zeta.
    change (rows (setOffsets _ _ _)) with (rows c2).
    change (columns (setOffsets _ _ _)) with (columns c2).
    rewrite E4. reflexivity.
Qed.

Section EffectiveInputs.

Local Open Scope num_scope.

Variable show : num → string.

(** The layout depends on the paper, the picture width, the effective
    picture height, the margin and the spacing only. *)
Lemma calculateGrid_effective_inputs (c1 c2 : t) :
  selectedPaperSize c1 = selectedPaperSize c2 →
  pictureWidth c1 = pictureWidth c2 →
  pictureHeightMm c1 = pictureHeightMm c2 →
  margins c1 = margins c2 → spacing c1 = spacing c2 →
  hasLayoutError (final (calculateGrid show c1))
  = hasLayoutError (final (calculateGrid show c2))
  ∧ errorMessage (final (calculateGrid show c1))
    = errorMessage (final (calculateGrid show c2))
  ∧ rows (final (calculateGrid show c1)) = rows (final (calculateGrid show c2))
  ∧ columns (final (calculateGrid show c1))
    = columns (final (calculateGrid show c2))
  ∧ (∀ g1, calculateGrid show c1 = Normal g1 →
       ∃ g2, calculateGrid show c2 = Normal g2
             ∧ placeholders g1 = placeholders g2
             ∧ (hasLayoutError g1 = false →
                offsetX g1 = offsetX g2 ∧ offsetY g1 = offsetY g2))
  ∧ (∀ g1, calculateGrid show c1 = RangeError g1 →
       ∃ g2, calculateGrid show c2 = RangeError g2).
Proof.
  intros Hp Hw Heh Hm Hs.
  assert (EpW : paperWidthMm c1 = paperWidthMm c2)
    by (unfold paperWidthMm; by rewrite Hp).
  assert (EpH : paperHeightMm c1 = paperHeightMm c2)
    by (unfold paperHeightMm; by rewrite Hp).
  assert (ErW : minRequiredWidth c1 = minRequiredWidth c2)
    by (unfold minRequiredWidth, pictureWidthMm, marginMm; by rewrite Hw, Hm).
  assert (ErH : minRequiredHeight c1 = minRequiredHeight c2)
    by (unfold minRequiredHeight, marginMm; by rewrite Heh, Hm).
  assert (EaW : availableWidth c1 = availableWidth c2)
    by (unfold availableWidth, marginMm; by rewrite EpW, Hm).
  assert (EaH : availableHeight c1 = availableHeight c2)
    by (unfold availableHeight, marginMm; by rewrite EpH, Hm).
  assert (Emw : widthErrorMessage show c1 = widthErrorMessage show c2).
  { unfold widthErrorMessage, pictureWidthMm, marginMm.
    by rewrite ErW, EpW, Hw, Hm. }
  assert (Emh : heightErrorMessage show c1 = heightErrorMessage show c2).
  { unfold heightErrorMessage, marginMm. by rewrite ErH, EpH, Heh, Hm. }
  assert (Emn : noSpaceErrorMessage show c1 = noSpaceErrorMessage show c2).
  { unfold noSpaceErrorMessage, pictureWidthMm.
    by rewrite EaW, EaH, Heh, Hw. }
  assert (Ek : columns (countFitting (setError false "" c1))
               = columns (countFitting (setError false "" c2))).
  { change (floor ((availableWidth c1 + spacing c1)
                   / (pictureWidth c1 + spacing c1))
            = floor ((availableWidth c2 + spacing c2)
                     / (pictureWidth c2 + spacing c2))).
    by rewrite EaW, Hw, Hs. }
  assert (Er : rows (countFitting (setError false "" c1))
               = rows (countFitting (setError false "" c2))).
  { change (floor ((availableHeight c1 + spacing c1)
                   / (pictureHeightMm c1 + spacing c1))
            = floor ((availableHeight c2 + spacing c2)
                     / (pictureHeightMm c2 + spacing c2))).
    by rewrite EaH, Heh, Hs. }
  rewrite !calculateGrid_unfold. cbn zeta.
  rewrite ErW, EpW, ErH, EpH, Ek, Er, Emw, Emh, Emn.
  destruct (_ >? _).
  { repeat split; try done; intros g1 [= <-]; try done. eexists. by repeat split. }
  destruct (_ >? _).
  { repeat split; try done; intros g1 [= <-]; try done. eexists. by repeat split. }
  destruct (_ || _).
  { repeat split; try done; intros g1 [= <-]; try done. eexists. by repeat split. }
  set (k1 := countFitting (setError false "" c1)) in *.
  set (k2 := countFitting (setError false "" c2)) in *.
  unfold placeGrid. cbn zeta.
  set (g1 := setOffsets _ _ k1). set (g2 := setOffsets _ _ k2).
  assert (Eox : offsetX g1 = offsetX g2).
  { change (margins c1 + (availableWidth c1
              - (columns k1 * pictureWidth c1
                 + (columns k1 - Fin 1) * spacing c1)) / Fin 2
            = margins c2 + (availableWidth c2
              - (columns k2 * pictureWidth c2
                 + (columns k2 - Fin 1) * spacing c2)) / Fin 2).
    by rewrite Hm, EaW, Ek, Hw, Hs. }
  assert (Eoy : offsetY g1 = offsetY g2).
  { change (margins c1 + (availableHeight c1
              - (rows k1 * pictureHeightMm c1
                 + (rows k1 - Fin 1) * spacing c1)) / Fin 2
            = margins c2 + (availableHeight c2
              - (rows k2 * pictureHeightMm c2
                 + (rows k2 - Fin 1) * spacing c2)) / Fin 2).
    by rewrite Hm, EaH, Er, Heh, Hs. }
  assert (Enew : ∀ i, newPlaceholder g1 i = newPlaceholder g2 i).
  { intros i. unfold newPlaceholder.
    change (columns g1) with (columns k1). change (columns g2) with (columns k2).
    change (pictureWidthMm g1) with (pictureWidth c1).
    change (pictureWidthMm g2) with (pictureWidth c2).
    change (pictureHeightMm g1) with (pictureHeightMm c1).
    change (pictureHeightMm g2) with (pictureHeightMm c2).
    change (spacingMm g1) with (spacing c1).
    change (spacingMm g2) with (spacing c2).
    by rewrite Eox, Eoy, Ek, Hw, Heh, Hs. }
  change (rows g1) with (rows k1). change (rows g2) with (rows k2).
  change (columns g1) with (columns k1). change (columns g2) with (columns k2).
  rewrite Ek, Er.
  destruct (Array_indices _) as [l|]; repeat split; try done;
    intros ? Hg; inversion Hg; subst; eexists; repeat split; try done.
  cbn [placeholders setPlaceholders]. apply map_ext. intros i. apply Enew.
Qed.

End EffectiveInputs.

(** X6. Clearing undoes loading: on a placeholder of a grid that
    [calculateGrid] built, loading an image and clearing it again gives the
    placeholder back, and [clearAllPictures] leaves a grid without images
    as it is. *)
Theorem clearImage_undoes_load (show : num → string) (c c' : t)
    (i : nat) (p : PlaceholderState.t) (result : option string)
    (width height : num) :
  calculateGrid show c = Normal c' →
  placeholders c' !! i = Some p →
  clearImage (loadImage_onload c' result width height p) = p
  ∧ clearAllPictures c' = c'.
Proof.
  intros Hg Hp. split.
  - rewrite clearImage_loadImage.
    destruct (calculateGrid_placeholder_fresh show c c' i p Hg Hp) as [g ->].
    reflexivity.
  - unfold clearAllPictures.
    transitivity (setPlaceholders (placeholders c') c');
      [|apply setPlaceholders_same].
    f_equal.
    apply list_eq. intros n. rewrite list_lookup_fmap.
    destruct (placeholders c' !! n) as [q|] eqn:Hq; [|done].
    destruct (calculateGrid_placeholder_fresh show c c' n q Hg Hq) as [g ->].
    reflexivity.
Qed.

Lemma clearImage_undoes_load_witness :
  let c := component 44 44 4 2 rectangular false in
  let c' := final (calculateGrid showFraction c) in
  let p := newPlaceholder c' 0 in
  calculateGrid showFraction c = Normal c'
  ∧ placeholders c' !! 0%nat = Some p
  ∧ clearImage
      (loadImage_onload c' (Some "data:image/png;base64,iVBORw0KGgo=")
         (Fin 2000) (Fin 1000) p) = p
  ∧ clearAllPictures c' = c'.
Proof.
  intros c c' p.
  assert (H1 : calculateGrid showFraction c = Normal c') by reflexivity.
  assert (H2 : placeholders c' !! 0%nat = Some p) by reflexivity.
  split; [exact H1|]. split; [exact H2|].
  exact (clearImage_undoes_load showFraction c c' 0 p
           (Some "data:image/png;base64,iVBORw0KGgo=") (Fin 2000) (Fin 1000)
           H1 H2).
Defined.

(** X7. For round placeholders the picture height plays no part in the layout:
    two components that agree on the paper, the picture width, the margin
    and the spacing get the same outcome, counts and placeholders. *)
Theorem calculateGrid_round_ignores_height (show : num → string)
    (c1 c2 : t) :
  placeholderShape c1 = round → placeholderShape c2 = round →
  selectedPaperSize c1 = selectedPaperSize c2 →
  pictureWidth c1 = pictureWidth c2 →
  margins c1 = margins c2 → spacing c1 = spacing c2 →
  hasLayoutError (final (calculateGrid show c1))
  = hasLayoutError (final (calculateGrid show c2))
  ∧ errorMessage (final (calculateGrid show c1))
    = errorMessage (final (calculateGrid show c2))
  ∧ rows (final (calculateGrid show c1)) = rows (final (calculateGrid show c2))
  ∧ columns (final (calculateGrid show c1))
    = columns (final (calculateGrid show c2))
  ∧ (∀ g1, calculateGrid show c1 = Normal g1 →
       ∃ g2, calculateGrid show c2 = Normal g2
             ∧ placeholders g1 = placeholders g2)
  ∧ (∀ g1, calculateGrid show c1 = RangeError g1 →
       ∃ g2, calculateGrid show c2 = RangeError g2).
Proof.
  intros Hs1 Hs2 Hp Hw Hm Hsp.
  assert (pictureHeightMm c1 = pictureHeightMm c2) as Hh.
  { unfold pictureHeightMm. by rewrite Hs1, Hs2. }
  destruct (calculateGrid_effective_inputs show c1 c2 Hp Hw Hh Hm Hsp)
    as (H1 & H2 & H3 & H4 & H5 & H6).
  repeat (split; [done|]). split; [|done].
  intros g1 Hg1. destruct (H5 g1 Hg1) as (g2 & Hg2 & Hpl & _). by exists g2.
Qed.

Lemma calculateGrid_round_ignores_height_witness :
  let c1 := component 44 44 4 2 round false in
  let c2 := component 44 10 4 2 round false in
  pictureHeight c1 ≠ pictureHeight c2
  ∧ rows (final (calculateGrid showFraction c1))
    = rows (final (calculateGrid showFraction c2))
  ∧ columns (final (calculateGrid showFraction c1))
    = columns (final (calculateGrid showFraction c2)).
Proof.
  intros c1 c2. split; [discriminate|].
  destruct (calculateGrid_round_ignores_height showFraction c1 c2 eq_refl
              eq_refl eq_refl eq_refl eq_refl eq_refl)
    as (_ & _ & H3 & H4 & _).
  split; [exact H3|exact H4].
Defined.

(** ** Fitting an image *)

Section Fit.

Local Open Scope num_scope.

Lemma max_Fin (a b : Q) :
  ∃ s, max (Fin a) (Fin b) = Fin s
       ∧ (a <= s)%Q ∧ (b <= s)%Q ∧ ((s == a)%Q ∨ (s == b)%Q).
Proof.
  simpl. destruct (Qle_bool b a) eqn:H; simpl.
  - apply Qle_bool_iff in H. exists a. repeat split; lra.
  - apply (le_Fin_false b a) in H. exists b. repeat split; lra.
Qed.

Lemma min_Fin (a b : Q) :
  ∃ s, min (Fin a) (Fin b) = Fin s
       ∧ (s <= a)%Q ∧ (s <= b)%Q ∧ ((s == a)%Q ∨ (s == b)%Q).
Proof.
  simpl. destruct (Qle_bool a b) eqn:H; simpl.
  - apply Qle_bool_iff in H. exists a. repeat split; lra.
  - apply (le_Fin_false a b) in H. exists b. repeat split; lra.
Qed.

Lemma Qdiv_ge_inv (a b c : Q) : (0 < b)%Q → (c <= a / b)%Q → (b * c <= a)%Q.
Proof.
  intros Hb H. assert (a / b * b == a)%Q as He by (field; lra).
  assert (c * b <= a / b * b)%Q by (apply Qmult_le_compat_r; lra). lra.
Qed.

Lemma Qdiv_eq_inv (a b c : Q) : (0 < b)%Q → (c == a / b)%Q → (b * c == a)%Q.
Proof. intros Hb ->. field. lra. Qed.

(** The fit of an image with finite, non-zero size in a placeholder of
    finite size: the scale is the smaller or the larger quotient and the
    offsets centre the scaled image. *)
Lemma fit_values (c : t) (p : PlaceholderState.t) (pw eh iw ih : Q) :
  pictureWidth c = Fin pw → pictureHeightMm c = Fin eh →
  PlaceholderState.imageWidth p = Fin iw →
  PlaceholderState.imageHeight p = Fin ih →
  ¬ (iw == 0)%Q → ¬ (ih == 0)%Q →
  let k := (96 / 25.4)%Q in
  let fitScale :=
    if allowWhitespace c
    then min (Fin (pw * k / iw)) (Fin (eh * k / ih))
    else max (Fin (pw * k / iw)) (Fin (eh * k / ih)) in
  fitImageToPlaceholder c p
  = PlaceholderState.setTransform p
      ((Fin (pw * k) - Fin iw * fitScale) / Fin 2)
      ((Fin (eh * k) - Fin ih * fitScale) / Fin 2)
      fitScale.
Proof.
  intros Hpw Heh Hiw Hih Hiw0 Hih0. cbn zeta.
  unfold fitImageToPlaceholder. rewrite Hiw, Hih.
  cbn [truthy]. apply Qeq_bool_false in Hiw0, Hih0. rewrite Hiw0, Hih0.
  cbn [negb orb].
  change (if Shape_eqb (placeholderShape c) round then pictureWidth c
          else pictureHeight c) with (pictureHeightMm c).
  rewrite Hpw, Heh. change mmToCssPx with (Fin (96 / 25.4)).
  cbn [mul]. apply Qeq_bool_false in Hiw0, Hih0.
  rewrite !div_Fin by done. reflexivity.
Qed.

End Fit.

(** X8. With the same placeholder and image, the scale of the contain fit is at
    most the scale of the cover fit. *)
Theorem fit_contain_le_cover (c1 c2 : t) (p : PlaceholderState.t)
    (pw eh iw ih : Q) :
  allowWhitespace c1 = true → allowWhitespace c2 = false →
  pictureWidth c1 = Fin pw → pictureWidth c2 = Fin pw →
  pictureHeightMm c1 = Fin eh → pictureHeightMm c2 = Fin eh →
  PlaceholderState.imageWidth p = Fin iw →
  PlaceholderState.imageHeight p = Fin ih →
  ¬ (iw == 0)%Q → ¬ (ih == 0)%Q →
  (PlaceholderState.scale (fitImageToPlaceholder c1 p)
   <=? PlaceholderState.scale (fitImageToPlaceholder c2 p))%num = true.
Proof.
  intros Hw1 Hw2 Hp1 Hp2 He1 He2 Hiw Hih Hiw0 Hih0.
  rewrite (fit_values c1 p pw eh iw ih), (fit_values c2 p pw eh iw ih) by done.
  cbn zeta. rewrite Hw1, Hw2. cbn [PlaceholderState.scale
                                   PlaceholderState.setTransform].
  destruct (min_Fin (pw * (96 / 25.4) / iw) (eh * (96 / 25.4) / ih))
    as (s1 & -> & A1 & _).
  destruct (max_Fin (pw * (96 / 25.4) / iw) (eh * (96 / 25.4) / ih))
    as (s2 & -> & A2 & _).
  apply le_Fin. lra.
Qed.

Lemma fit_contain_le_cover_witness :
  let mm := 400 * (25.4 / 96) in
  let c1 := component mm mm 4 2 rectangular true in
  let c2 := component mm mm 4 2 rectangular false in
  let p := picture 2000 1000 0 0 1 in
  allowWhitespace c1 = true ∧ allowWhitespace c2 = false
  ∧ ¬ (2000 == 0)%Q ∧ ¬ (1000 == 0)%Q
  ∧ (PlaceholderState.scale (fitImageToPlaceholder c1 p)
     <=? PlaceholderState.scale (fitImageToPlaceholder c2 p))%num = true.
Proof.
  intros mm c1 c2 p.
  assert (H1 : ¬ (2000 == 0)%Q) by discriminate.
  assert (H2 : ¬ (1000 == 0)%Q) by discriminate.
  split; [reflexivity|]. split; [reflexivity|]. split; [exact H1|].
  split; [exact H2|].
  exact (fit_contain_le_cover c1 c2 p mm mm 2000 1000 eq_refl eq_refl
           eq_refl eq_refl eq_refl eq_refl eq_refl eq_refl H1 H2).
Defined.

Section FitPlacement.

Variables (c : t) (p : PlaceholderState.t) (pw eh iw ih : Q).
Hypothesis Hpw : pictureWidth c = Fin pw.
Hypothesis Heh : pictureHeightMm c = Fin eh.
Hypothesis Hiw : PlaceholderState.imageWidth p = Fin iw.
Hypothesis Hih : PlaceholderState.imageHeight p = Fin ih.
Hypothesis Hiw0 : (0 < iw)%Q.
Hypothesis Hih0 : (0 < ih)%Q.

Let k : Q := (96 / 25.4)%Q.

(** The fit at a finite scale [s], field by field. *)
Lemma fit_at_scale (s : Q) :
  (if allowWhitespace c
   then min (Fin (pw * k / iw)) (Fin (eh * k / ih))
   else max (Fin (pw * k / iw)) (Fin (eh * k / ih)))%num = Fin s →
  let f := fitImageToPlaceholder c p in
  PlaceholderState.scale f = Fin s
  ∧ PlaceholderState.offsetX f = Fin ((pw * k + - (iw * s)) / 2)
  ∧ PlaceholderState.offsetY f = Fin ((eh * k + - (ih * s)) / 2)
  ∧ PlaceholderState.imageWidth f = Fin iw
  ∧ PlaceholderState.imageHeight f = Fin ih
  ∧ placeholderWidthPx c = Fin (pw * k)
  ∧ placeholderHeightPx c = Fin (eh * k).
Proof.
  intros Hs. cbn zeta.
  rewrite (fit_values c p pw eh iw ih) by (done || lra).
  cbn zeta. fold k. rewrite Hs.
  cbn [PlaceholderState.scale PlaceholderState.offsetX
       PlaceholderState.offsetY PlaceholderState.imageWidth
       PlaceholderState.imageHeight PlaceholderState.setTransform].
  unfold placeholderWidthPx, placeholderHeightPx. rewrite Hpw, Heh, Hiw, Hih.
  change mmToCssPx with (Fin k).
  repeat split; reflexivity.
Qed.

End FitPlacement.

Section Placement.

(** A cover fit covers the placeholder, whatever its shape, and is flush
    with it on one axis. *)
Lemma fit_cover_placement (c : t) (p : PlaceholderState.t) (pw eh iw ih : Q) :
  allowWhitespace c = false →
  pictureWidth c = Fin pw → pictureHeightMm c = Fin eh →
  PlaceholderState.imageWidth p = Fin iw →
  PlaceholderState.imageHeight p = Fin ih →
  (0 < iw)%Q → (0 < ih)%Q →
  let f := fitImageToPlaceholder c p in
  covers c f = true
  ∧ ((PlaceholderState.offsetX f ≃ Fin 0)%num
     ∨ (PlaceholderState.offsetY f ≃ Fin 0)%num).
Proof.
  intros Hws Hpw Heh Hiw Hih Hiw0 Hih0.
  destruct (max_Fin (pw * (96 / 25.4) / iw) (eh * (96 / 25.4) / ih))
    as (s & Hs & A & B & E).
  destruct (fit_at_scale c p pw eh iw ih Hpw Heh Hiw Hih Hiw0 Hih0 s)
    as (F1 & F2 & F3 & F4 & F5 & F6 & F7).
  { by rewrite Hws. }
  cbn zeta. unfold covers. rewrite F1, F2, F3, F4, F5, F6, F7.
  apply Qdiv_le_inv in A, B; [|done..].
  split.
  - cbn [add mul]. rewrite !(proj2 (le_Fin _ _)); [done|rewrite Qhalf; lra..].
  - cbn [same]. destruct E as [E|E]; [left|right];
      apply Qdiv_eq_inv in E; try done; rewrite Qhalf; lra.
Qed.

(** A contain fit lies inside the placeholder and touches it on one axis. *)
Lemma fit_contain_placement (c : t) (p : PlaceholderState.t)
    (pw eh iw ih : Q) :
  allowWhitespace c = true →
  pictureWidth c = Fin pw → pictureHeightMm c = Fin eh →
  PlaceholderState.imageWidth p = Fin iw →
  PlaceholderState.imageHeight p = Fin ih →
  (0 < iw)%Q → (0 < ih)%Q →
  let f := fitImageToPlaceholder c p in
  inside c f = true
  ∧ ((PlaceholderState.offsetX f ≃ Fin 0)%num
     ∨ (PlaceholderState.offsetY f ≃ Fin 0)%num).
Proof.
  intros Hws Hpw Heh Hiw Hih Hiw0 Hih0.
  destruct (min_Fin (pw * (96 / 25.4) / iw) (eh * (96 / 25.4) / ih))
    as (s & Hs & A & B & E).
  destruct (fit_at_scale c p pw eh iw ih Hpw Heh Hiw Hih Hiw0 Hih0 s)
    as (F1 & F2 & F3 & F4 & F5 & F6 & F7).
  { by rewrite Hws. }
  cbn zeta. unfold inside. rewrite F1, F2, F3, F4, F5, F6, F7.
  apply Qdiv_ge_inv in A, B; [|done..].
  split.
  - cbn [add mul]. rewrite !(proj2 (le_Fin _ _)); [done|rewrite Qhalf; lra..].
  - cbn [same]. destruct E as [E|E]; [left|right];
      apply Qdiv_eq_inv in E; try done; rewrite Qhalf; lra.
Qed.

(** Both modes at once. *)
Lemma fit_placement (c : t) (p : PlaceholderState.t) (pw eh iw ih : Q) :
  pictureWidth c = Fin pw → pictureHeightMm c = Fin eh →
  PlaceholderState.imageWidth p = Fin iw →
  PlaceholderState.imageHeight p = Fin ih →
  (0 < iw)%Q → (0 < ih)%Q →
  let f := fitImageToPlaceholder c p in
  (if allowWhitespace c then inside c f else covers c f) = true
  ∧ ((PlaceholderState.offsetX f ≃ Fin 0)%num
     ∨ (PlaceholderState.offsetY f ≃ Fin 0)%num).
Proof.
  intros Hpw Heh Hiw Hih Hiw0 Hih0.
  destruct (allowWhitespace c) eqn:Hws.
  - by apply (fit_contain_placement c p pw eh iw ih).
  - by apply (fit_cover_placement c p pw eh iw ih).
Qed.

End Placement.

(** X9. An image of positive size that has been loaded is fitted to its
    placeholder, whatever the shape: in cover mode it covers the
    placeholder, in whitespace mode it lies inside it, and in both it is
    flush with the placeholder on one axis. *)
Theorem loadImage_fits (c : t) (result : option string) (width height : num)
    (p : PlaceholderState.t) (pw eh iw ih : Q) :
  pictureWidth c = Fin pw → pictureHeightMm c = Fin eh →
  width = Fin iw → height = Fin ih → (0 < iw)%Q → (0 < ih)%Q →
  let f := loadImage_onload c result width height p in
  PlaceholderState.imageData f = result
  ∧ (if allowWhitespace c then inside c f else covers c f) = true
  ∧ ((PlaceholderState.offsetX f ≃ Fin 0)%num
     ∨ (PlaceholderState.offsetY f ≃ Fin 0)%num).
Proof.
  intros Hpw Heh -> -> Hiw0 Hih0. cbn zeta. split.
  - unfold loadImage_onload, fitImageToPlaceholder.
    cbn [PlaceholderState.imageWidth PlaceholderState.imageHeight].
    by destruct (_ || _).
  - by apply (fit_placement c _ pw eh iw ih).
Qed.

Lemma loadImage_fits_witness :
  let c := component 44 30 4 2 round false in
  let f :=
    loadImage_onload c (Some "data:image/png;base64,iVBORw0KGgo=")
      (Fin 2000) (Fin 1000) (newPlaceholder c 0) in
  (0 < 2000)%Q ∧ (0 < 1000)%Q
  ∧ PlaceholderState.imageData f = Some "data:image/png;base64,iVBORw0KGgo="
  ∧ covers c f = true
  ∧ ((PlaceholderState.offsetX f ≃ Fin 0)%num
     ∨ (PlaceholderState.offsetY f ≃ Fin 0)%num).
Proof.
  intros c f.
  assert (H1 : (0 < 2000)%Q) by reflexivity.
  assert (H2 : (0 < 1000)%Q) by reflexivity.
  split; [exact H1|]. split; [exact H2|].
  exact (loadImage_fits c (Some "data:image/png;base64,iVBORw0KGgo=")
           (Fin 2000) (Fin 1000) (newPlaceholder c 0) 44 44 2000 1000
           eq_refl eq_refl eq_refl eq_refl H1 H2).
Defined.

Section Refit.

Lemma fit_setTransform (c : t) (p : PlaceholderState.t) (a b s : num) :
  truthy (PlaceholderState.imageWidth p) = true →
  truthy (PlaceholderState.imageHeight p) = true →
  fitImageToPlaceholder c (PlaceholderState.setTransform p a b s)
  = fitImageToPlaceholder c p.
Proof.
  intros Hw Hh. unfold fitImageToPlaceholder.
  cbn [PlaceholderState.imageWidth PlaceholderState.imageHeight
       PlaceholderState.setTransform].
  rewrite Hw, Hh. reflexivity.
Qed.

Lemma resetImage_setTransform (c : t) (p : PlaceholderState.t) (a b s : num) :
  PlaceholderState.hasImage p = true →
  truthy (PlaceholderState.imageWidth p) = true →
  truthy (PlaceholderState.imageHeight p) = true →
  resetImage c (PlaceholderState.setTransform p a b s)
  = fitImageToPlaceholder c p.
Proof.
  intros Hi Hw Hh. unfold resetImage.
  change (PlaceholderState.hasImage (PlaceholderState.setTransform p a b s))
    with (PlaceholderState.hasImage p).
  change (PlaceholderState.imageWidth (PlaceholderState.setTransform p a b s))
    with (PlaceholderState.imageWidth p).
  change (PlaceholderState.imageHeight (PlaceholderState.setTransform p a b s))
    with (PlaceholderState.imageHeight p).
  rewrite Hi, Hw, Hh. cbn [negb orb]. by apply fit_setTransform.
Qed.

Lemma resetImage_fit (c : t) (p : PlaceholderState.t) :
  PlaceholderState.hasImage p = true →
  truthy (PlaceholderState.imageWidth p) = true →
  truthy (PlaceholderState.imageHeight p) = true →
  resetImage c p = fitImageToPlaceholder c p.
Proof. intros Hi Hw Hh. unfold resetImage. by rewrite Hi, Hw, Hh. Qed.

(** What [onWheel] returns is the placeholder it got, or that placeholder
    with another transform. *)
Lemma onWheel_transform (c : t) (event : WheelEvent.t)
    (p : PlaceholderState.t) :
  PlaceholderState.hasImage p = true →
  ∃ a b s, onWheel c event p = PlaceholderState.setTransform p a b s.
Proof.
  intros Hi. unfold onWheel. rewrite Hi. cbn [negb]. cbn zeta.
  eexists _, _, _. reflexivity.
Qed.

End Refit.

(** X10. [resetImage] brings back the fit of the moment the image was loaded:
    neither a wheel step nor any offsets and scale set before it leave a
    trace, and a second reset changes nothing. *)
Theorem resetImage_undoes_pan_zoom (c : t) (event : WheelEvent.t)
    (p : PlaceholderState.t) (a b s : num) :
  PlaceholderState.hasImage p = true →
  truthy (PlaceholderState.imageWidth p) = true →
  truthy (PlaceholderState.imageHeight p) = true →
  resetImage c (onWheel c event p) = resetImage c p
  ∧ resetImage c (PlaceholderState.setTransform p a b s) = resetImage c p
  ∧ resetImage c (resetImage c p) = resetImage c p.
Proof.
  intros Hi Hw Hh. rewrite (resetImage_fit c p) by done. split; [|split].
  - destruct (onWheel_transform c event p Hi) as (a' & b' & s' & ->).
    by apply resetImage_setTransform.
  - by apply resetImage_setTransform.
  - unfold fitImageToPlaceholder at 1. rewrite Hw, Hh. cbn [negb orb].
    cbn zeta. by apply resetImage_setTransform.
Qed.

Lemma resetImage_undoes_pan_zoom_witness :
  let c := component 44 44 4 2 rectangular false in
  let p := picture 2000 1000 (-30) (-20) 3 in
  resetImage c (onWheel c (wheelAt 10 10 (-1)) p) = resetImage c p
  ∧ resetImage c (PlaceholderState.setTransform p (Fin 1) (Fin 2) (Fin 3))
    = resetImage c p
  ∧ resetImage c (resetImage c p) = resetImage c p.
Proof.
  intros c p.
  exact (resetImage_undoes_pan_zoom c (wheelAt 10 10 (-1)) p (Fin 1) (Fin 2)
           (Fin 3) eq_refl eq_refl eq_refl).
Defined.

(** ** Wheel zoom *)

Section WheelCover.
Local Open Scope num_scope.




End WheelCover.



Section WheelWhitespace.
Local Open Scope num_scope.

Lemma onWheel_whitespace_eq (c : t) (event : WheelEvent.t)
    (p : PlaceholderState.t) :
  allowWhitespace c = true → PlaceholderState.hasImage p = true →
  let mouseX := WheelEvent.clientX event - WheelEvent.rectLeft event in
  let mouseY := WheelEvent.clientY event - WheelEvent.rectTop event in
  let newScale := PlaceholderState.scale p * zoomFactor event in
  onWheel c event p
  = PlaceholderState.setTransform p
      (mouseX - (mouseX - PlaceholderState.offsetX p)
                / PlaceholderState.scale p * newScale)
      (mouseY - (mouseY - PlaceholderState.offsetY p)
                / PlaceholderState.scale p * newScale)
      newScale.
Proof.
  intros Hws Hi. cbn zeta. unfold onWheel. rewrite Hws, Hi. reflexivity.
Qed.

(** One wheel step at a finite scale, over the rationals. *)
Lemma onWheel_whitespace_Fin (c : t) (event : WheelEvent.t)
    (p : PlaceholderState.t) (s ox oy cx cy rl rt z : Q) :
  allowWhitespace c = true → PlaceholderState.hasImage p = true →
  PlaceholderState.scale p = Fin s →
  PlaceholderState.offsetX p = Fin ox → PlaceholderState.offsetY p = Fin oy →
  WheelEvent.clientX event = Fin cx → WheelEvent.clientY event = Fin cy →
  WheelEvent.rectLeft event = Fin rl → WheelEvent.rectTop event = Fin rt →
  zoomFactor event = Fin z → ¬ (s == 0)%Q →
  onWheel c event p
  = PlaceholderState.setTransform p
      (Fin (cx + - rl + - ((cx + - rl + - ox) / s * (s * z))))
      (Fin (cy + - rt + - ((cy + - rt + - oy) / s * (s * z))))
      (Fin (s * z)).
Proof.
  intros Hws Hi Hs Hox Hoy Hcx Hcy Hrl Hrt Hz Hs0.
  rewrite onWheel_whitespace_eq by done. cbn zeta.
  rewrite Hs, Hox, Hoy, Hcx, Hcy, Hrl, Hrt, Hz.
  cbn [sub add neg mul]. rewrite !div_Fin by done. reflexivity.
Qed.

Lemma zoom_back (m o s z w : Q) :
  ¬ (s == 0)%Q → ¬ (z == 0)%Q → (z * w == 1)%Q →
  (m + - ((m + - (m + - ((m + - o) / s * (s * z)))) / (s * z)
          * (s * z * w)) == o)%Q.
Proof.
  intros Hs Hz Hzw.
  assert ((m + - (m + - ((m + - o) / s * (s * z)))) / (s * z) * (s * z * w)
          == (m + - o) * (z * w))%Q as ->.
  { field. by split. }
  rewrite Hzw. ring.
Qed.

End WheelWhitespace.

(** X12. In whitespace mode a wheel step in one direction followed by a step in
    the other at the same cursor position brings back the scale and the
    offsets (in exact arithmetic). *)
Theorem onWheel_there_and_back (c : t) (event1 event2 : WheelEvent.t)
    (p : PlaceholderState.t) (s ox oy cx cy rl rt : Q) :
  allowWhitespace c = true → PlaceholderState.hasImage p = true →
  PlaceholderState.scale p = Fin s →
  PlaceholderState.offsetX p = Fin ox → PlaceholderState.offsetY p = Fin oy →
  WheelEvent.clientX event1 = Fin cx → WheelEvent.clientY event1 = Fin cy →
  WheelEvent.rectLeft event1 = Fin rl → WheelEvent.rectTop event1 = Fin rt →
  WheelEvent.clientX event2 = Fin cx → WheelEvent.clientY event2 = Fin cy →
  WheelEvent.rectLeft event2 = Fin rl → WheelEvent.rectTop event2 = Fin rt →
  (WheelEvent.deltaY event2 <? Fin 0)%num
  = negb (WheelEvent.deltaY event1 <? Fin 0)%num →
  ¬ (s == 0)%Q →
  let q := onWheel c event2 (onWheel c event1 p) in
  (PlaceholderState.scale q ≃ PlaceholderState.scale p)%num
  ∧ (PlaceholderState.offsetX q ≃ PlaceholderState.offsetX p)%num
  ∧ (PlaceholderState.offsetY q ≃ PlaceholderState.offsetY p)%num.
Proof.
  intros Hws Hi Hs Hox Hoy Hcx1 Hcy1 Hrl1 Hrt1 Hcx2 Hcy2 Hrl2 Hrt2 Hd Hs0.
  assert (∃ z w, zoomFactor event1 = Fin z ∧ zoomFactor event2 = Fin w
                 ∧ ¬ (z == 0)%Q ∧ (z * w == 1)%Q)
    as (z & w & Hz & Hw & Hz0 & Hzw).
  { unfold zoomFactor. rewrite Hd.
    destruct (WheelEvent.deltaY event1 <? Fin 0)%num; cbn [negb].
    - exists 1.1%Q, (1 / 1.1)%Q. repeat split; done.
    - exists (1 / 1.1)%Q, 1.1%Q. repeat split; done. }
  assert (¬ (s * z == 0)%Q) as Hsz.
  { intros H. apply Qmult_integral in H as [H|H]; auto. }
  cbn zeta.
  rewrite (onWheel_whitespace_Fin c event1 p s ox oy cx cy rl rt z) by done.
  erewrite (onWheel_whitespace_Fin c event2 _ (s * z) _ _ cx cy rl rt w);
    try done.
  cbn [PlaceholderState.scale PlaceholderState.offsetX
       PlaceholderState.offsetY PlaceholderState.setTransform].
  rewrite Hs, Hox, Hoy. cbn [same].
  split; [|split].
  - rewrite <- Qmult_assoc, Hzw. ring.
  - by apply zoom_back.
  - by apply zoom_back.
Qed.

Lemma onWheel_there_and_back_witness :
  let c := component 44 30 4 2 rectangular true in
  let p := picture 2000 1000 5 (-7) 0.5 in
  let q := onWheel c (wheelAt 10 20 3) (onWheel c (wheelAt 10 20 (-3)) p) in
  allowWhitespace c = true ∧ ¬ (0.5 == 0)%Q
  ∧ (PlaceholderState.scale q ≃ PlaceholderState.scale p)%num
  ∧ (PlaceholderState.offsetX q ≃ PlaceholderState.offsetX p)%num
  ∧ (PlaceholderState.offsetY q ≃ PlaceholderState.offsetY p)%num.
Proof.
  intros c p q.
  assert (H : ¬ (0.5 == 0)%Q) by discriminate.
  split; [reflexivity|]. split; [exact H|].
  exact (onWheel_there_and_back c (wheelAt 10 20 (-3)) (wheelAt 10 20 3) p
           0.5 5 (-7) 10 20 0 0 eq_refl eq_refl eq_refl eq_refl eq_refl
           eq_refl eq_refl eq_refl eq_refl eq_refl eq_refl eq_refl eq_refl
           eq_refl H).
Defined.

(** ** Dragging *)

Section UpdateFirst.

Context {A : Type} (test : A → bool) (change : A → A).

Lemma updateFirst_length (l : list A) :
  length (updateFirst test change l) = length l.
Proof.
  induction l as [|a l IH]; [done|]. simpl.
  destruct (test a); simpl; by rewrite ?IH.
Qed.


Lemma updateFirst_none (l : list A) :
  (∀ n a, l !! n = Some a → test a = false) →
  updateFirst test change l = l.
Proof.
  induction l as [|b l IH]; intros H; [done|]. simpl.
  rewrite (H 0%nat b eq_refl). f_equal. apply IH.
  intros n a Hn. by apply (H (S n) a).
Qed.

Lemma updateFirst_first (l : list A) (n : nat) (a : A) :
  l !! n = Some a → test a = true →
  (∀ m b, (m < n)%nat → l !! m = Some b → test b = false) →
  updateFirst test change l = <[n := change a]> l.
Proof.
  revert n. induction l as [|b l IH]; intros n Hn Ha Hm; [done|].
  destruct n as [|n]; simpl in *.
  - injection Hn as ->. by rewrite Ha.
  - rewrite (Hm 0%nat b (Nat.lt_0_succ n) eq_refl). f_equal.
    apply IH; [done..|].
    intros m c Hlt Hc. apply (Hm (S m) c); [|done]. by apply Nat.succ_lt_mono in Hlt.
Qed.

End UpdateFirst.

Section Drag.
Local Open Scope num_scope.

Lemma strictEq_refl (a : num) : isNaN a = false → strictEq a a = true.
Proof. destruct a; simpl; try done. intros _. apply Qeq_bool_iff. reflexivity. Qed.

(** A move during an active drag, in whitespace mode. *)
Lemma onMouseMove_whitespace_eq (c : t) (d : DragState.t) (e : MouseEvent.t)
    (i : num) :
  allowWhitespace c = true →
  DragState.active d = true → DragState.placeholderId d = Some i →
  onMouseMove c d e
  = setPlaceholders
      (updateFirst (λ p, strictEq (PlaceholderState.id p) i)
         (λ p, PlaceholderState.setTransform p
                 (DragState.startOffsetX d
                  + (MouseEvent.clientX e - DragState.startX d))
                 (DragState.startOffsetY d
                  + (MouseEvent.clientY e - DragState.startY d))
                 (PlaceholderState.scale p))
         (placeholders c)) c.
Proof.
  intros Hws Ha Hi. unfold onMouseMove, isDragged. rewrite Hws, Ha, Hi.
  reflexivity.
Qed.



End Drag.

(** X13. In whitespace mode the image follows the cursor: after a mouse-down on a
    placeholder with an image, a move sets its offsets to those at the
    mouse-down plus the distance the cursor went, and touches no other
    placeholder. *)
Theorem drag_follows_cursor (c : t) (d0 : DragState.t)
    (down move : MouseEvent.t) (p : PlaceholderState.t) (n : nat) :
  allowWhitespace c = true →
  PlaceholderState.hasImage p = true →
  isNaN (PlaceholderState.id p) = false →
  let d := (onImageMouseDown d0 down p).1 in
  let p' := (onImageMouseDown d0 down p).2 in
  placeholders c !! n = Some p' →
  (∀ m q, (m < n)%nat → placeholders c !! m = Some q →
          strictEq (PlaceholderState.id q) (PlaceholderState.id p) = false) →
  onMouseMove c d move
  = setPlaceholders
      (<[n := PlaceholderState.setTransform p'
                (PlaceholderState.offsetX p
                 + (MouseEvent.clientX move - MouseEvent.clientX down))%num
                (PlaceholderState.offsetY p
                 + (MouseEvent.clientY move - MouseEvent.clientY down))%num
                (PlaceholderState.scale p)]> (placeholders c)) c.
Proof.
  intros Hws Hi Hid. unfold onImageMouseDown. rewrite Hi. cbn [negb fst snd].
  cbn zeta. intros Hn Hm.
  rewrite (onMouseMove_whitespace_eq c _ move (PlaceholderState.id p))
    by done.
  f_equal.
  rewrite (updateFirst_first _ _ _ n _ Hn); [reflexivity| |exact Hm].
  by apply strictEq_refl.
Qed.

Lemma drag_follows_cursor_witness :
  let p := picture 2000 1000 5 (-7) 0.5 in
  let down := {| MouseEvent.clientX := Fin 100; MouseEvent.clientY := Fin 50 |} in
  let move := {| MouseEvent.clientX := Fin 130; MouseEvent.clientY := Fin 40 |} in
  let p' := (onImageMouseDown idleDragState down p).2 in
  let d := (onImageMouseDown idleDragState down p).1 in
  let c := setPlaceholders [p'] (component 44 30 4 2 rectangular true) in
  onMouseMove c d move
  = setPlaceholders
      [PlaceholderState.setTransform p' (Fin 35) (Fin (-17)) (Fin 0.5)] c.
Proof.
  intros p down move p' d c.
  assert (H : ∀ m q, (m < 0)%nat → placeholders c !! m = Some q →
              strictEq (PlaceholderState.id q) (PlaceholderState.id p) = false).
  { intros m q Hm. lia. }
  exact (drag_follows_cursor c idleDragState down move p 0 eq_refl eq_refl
           eq_refl eq_refl H).
Defined.

Section DragCover.
Local Open Scope num_scope.




End DragCover.



Section MouseUp.

Lemma setIsDraggingImage_undo (p : PlaceholderState.t) :
  PlaceholderState.isDraggingImage p = false →
  setIsDraggingImage false (setIsDraggingImage true p) = p.
Proof. destruct p. cbn. by intros ->. Qed.

Lemma onMouseUp_active_eq (c : t) (d : DragState.t) (i : num) :
  DragState.active d = true → DragState.placeholderId d = Some i →
  onMouseUp c d
  = (setPlaceholders
       (updateFirst (λ p, strictEq (PlaceholderState.id p) i)
          (setIsDraggingImage false) (placeholders c)) c,
     idleDragState).
Proof.
  intros Ha Hi. unfold onMouseUp, isDragged. rewrite Ha, Hi. reflexivity.
Qed.

End MouseUp.

(** X15. A mouse-up ends the drag a mouse-down began: the flag the mouse-down
    set on the placeholder is cleared again, and moves of the mouse after
    it change nothing. *)
Theorem onMouseUp_ends_drag (c : t) (d0 : DragState.t)
    (down move : MouseEvent.t) (p : PlaceholderState.t) (n : nat) :
  PlaceholderState.hasImage p = true →
  PlaceholderState.isDraggingImage p = false →
  isNaN (PlaceholderState.id p) = false →
  let d := (onImageMouseDown d0 down p).1 in
  let p' := (onImageMouseDown d0 down p).2 in
  placeholders c !! n = Some p' →
  (∀ m q, (m < n)%nat → placeholders c !! m = Some q →
          strictEq (PlaceholderState.id q) (PlaceholderState.id p) = false) →
  let c' := setPlaceholders (<[n := p]> (placeholders c)) c in
  onMouseUp c d = (c', idleDragState)
  ∧ onMouseMove c' idleDragState move = c'.
Proof.
  intros Hi Hf Hid. unfold onImageMouseDown. rewrite Hi. cbn [negb fst snd].
  cbn zeta. intros Hn Hm. split; [|reflexivity].
  rewrite (onMouseUp_active_eq c _ (PlaceholderState.id p)) by done.
  rewrite (updateFirst_first _ _ _ n _ Hn); [| |exact Hm].
  - by rewrite setIsDraggingImage_undo.
  - by apply strictEq_refl.
Qed.

Lemma onMouseUp_ends_drag_witness :
  let p := picture 2000 1000 5 (-7) 0.5 in
  let down := {| MouseEvent.clientX := Fin 100; MouseEvent.clientY := Fin 50 |} in
  let move := {| MouseEvent.clientX := Fin 130; MouseEvent.clientY := Fin 40 |} in
  let p' := (onImageMouseDown idleDragState down p).2 in
  let d := (onImageMouseDown idleDragState down p).1 in
  let c := setPlaceholders [p'] (component 44 30 4 2 rectangular true) in
  let c' := setPlaceholders [p] c in
  onMouseUp c d = (c', idleDragState)
  ∧ onMouseMove c' idleDragState move = c'.
Proof.
  intros p down move p' d c c'.
  assert (H : ∀ m q, (m < 0)%nat → placeholders c !! m = Some q →
              strictEq (PlaceholderState.id q) (PlaceholderState.id p) = false).
  { intros m q Hm. lia. }
  exact (onMouseUp_ends_drag c idleDragState down move p 0 eq_refl eq_refl
           eq_refl eq_refl H).
Defined.

Section Clearing.

Lemma clearImage_hasImage (p : PlaceholderState.t) :
  PlaceholderState.hasImage (clearImage p) = false.
Proof. reflexivity. Qed.

Lemma clearAllPictures_lookup (c : t) (n : nat) :
  placeholders (clearAllPictures c) !! n = clearImage <$> placeholders c !! n.
Proof.
  unfold clearAllPictures. cbn [placeholders setPlaceholders].
  apply list_lookup_fmap.
Qed.

End Clearing.

(** X16. After [clearAllPictures] no placeholder holds an image and every
    transform is back at its initial value, while the placeholders keep
    their number, ids and positions; wheel steps, resets and mouse-downs on
    them then do nothing. *)
Theorem clearAllPictures_clears (c : t) (n : nat) (p' : PlaceholderState.t)
    (event : WheelEvent.t) (d : DragState.t) (down : MouseEvent.t) :
  placeholders (clearAllPictures c) !! n = Some p' →
  length (placeholders (clearAllPictures c)) = length (placeholders c)
  ∧ PlaceholderState.hasImage p' = false
  ∧ PlaceholderState.offsetX p' = Fin 0
  ∧ PlaceholderState.offsetY p' = Fin 0
  ∧ PlaceholderState.scale p' = Fin 1
  ∧ (∃ p, placeholders c !! n = Some p
          ∧ PlaceholderState.id p' = PlaceholderState.id p
          ∧ PlaceholderState.left p' = PlaceholderState.left p
          ∧ PlaceholderState.top p' = PlaceholderState.top p)
  ∧ onWheel (clearAllPictures c) event p' = p'
  ∧ resetImage (clearAllPictures c) p' = p'
  ∧ onImageMouseDown d down p' = (d, p').
Proof.
  rewrite clearAllPictures_lookup. intros Hp.
  destruct (placeholders c !! n) as [p|] eqn:Hn; [|done].
  injection Hp as <-.
  split; [|repeat split].
  - unfold clearAllPictures. cbn [placeholders setPlaceholders].
    apply length_map.
  - by exists p.
Qed.

Lemma clearAllPictures_clears_witness :
  let c :=
    setPlaceholders [picture 2000 1000 5 (-7) 0.5]
      (component 44 30 4 2 rectangular true) in
  let p' := clearImage (picture 2000 1000 5 (-7) 0.5) in
  PlaceholderState.hasImage (picture 2000 1000 5 (-7) 0.5) = true
  ∧ placeholders (clearAllPictures c) !! 0%nat = Some p'
  ∧ PlaceholderState.hasImage p' = false
  ∧ onWheel (clearAllPictures c) (wheelAt 10 20 3) p' = p'.
Proof.
  intros c p'.
  split; [reflexivity|]. split; [reflexivity|].
  pose proof (clearAllPictures_clears c 0 p' (wheelAt 10 20 3) idleDragState
                {| MouseEvent.clientX := Fin 1; MouseEvent.clientY := Fin 1 |}
                eq_refl) as (_ & H1 & _ & _ & _ & _ & H2 & _).
  split; [exact H1|exact H2].
Defined.

Section WhitespaceChange.



End WhitespaceChange.



(** ** Storage *)

Lemma storage_keys_differ :
  StorageService.SETTINGS_KEY ≠ StorageService.DARK_MODE_KEY.
Proof. discriminate. Qed.

Lemma getDarkMode_setDarkMode (ls : LocalStorage) (isDarkMode : bool) :
  readable ls = true → writable ls = true →
  StorageService.getDarkMode (StorageService.setDarkMode ls isDarkMode)
  = isDarkMode.
Proof.
  unfold StorageService.getDarkMode, StorageService.setDarkMode, setItem,
    getItem.
  intros Hr ->. cbn. rewrite Hr, lookup_insert_eq. by destruct isDarkMode.
Qed.

(** X18. What [setDarkMode] writes is what [getDarkMode] reads back when the
    storage accepts both calls; a refused write leaves the storage as it
    was. *)
Theorem darkMode_roundtrip (ls : LocalStorage) (isDarkMode : bool) :
  (readable ls = true → writable ls = true →
   StorageService.getDarkMode (StorageService.setDarkMode ls isDarkMode)
   = isDarkMode)
  ∧ (writable ls = false → StorageService.setDarkMode ls isDarkMode = ls).
Proof.
  split; [apply getDarkMode_setDarkMode|].
  unfold StorageService.setDarkMode, setItem. by intros ->.
Qed.

Lemma darkMode_roundtrip_witness :
  readable emptyStorage = true ∧ writable emptyStorage = true
  ∧ StorageService.getDarkMode (StorageService.setDarkMode emptyStorage true)
    = true.
Proof.
  split; [reflexivity|]. split; [reflexivity|].
  exact (proj1 (darkMode_roundtrip emptyStorage true) eq_refl eq_refl).
Defined.

(** The record [saveSettings] builds has all nine settings, so the defaults
    add nothing to it. *)
Lemma settingsRecord_over_defaults (c : t) :
  spread2 StorageService.DEFAULT_SETTINGS (settingsRecord c) = settingsRecord c.
Proof.
  unfold spread2. apply map_eq. intros k. rewrite lookup_union.
  destruct (settingsRecord c !! k) as [v|] eqn:Hk.
  - by destruct (StorageService.DEFAULT_SETTINGS !! k).
  - apply not_elem_of_list_to_map_2 in Hk.
    assert (StorageService.DEFAULT_SETTINGS !! k = None) as ->; [|done].
    apply not_elem_of_list_to_map_1. exact Hk.
Qed.

Lemma loadSettings_saveSettings (JSON_parse : string → option jsval)
    (JSON_stringify : jsval → string) (c : t) :
  readable (storage c) = true → writable (storage c) = true →
  JSON_stringify (JObj (settingsRecord c)) ≠ "" →
  JSON_parse (JSON_stringify (JObj (settingsRecord c)))
  = Some (JObj (settingsRecord c)) →
  StorageService.loadSettings JSON_parse
    (storage (saveSettings JSON_stringify c))
  = settingsRecord c.
Proof.
  intros Hr Hw Hne Hp.
  unfold saveSettings, StorageService.saveSettings, setItem. rewrite Hw.
  cbn [storage setStorage].
  unfold StorageService.loadSettings, getItem. cbn [readable items].
  rewrite Hr, lookup_insert_eq, bool_decide_eq_false_2 by done.
  rewrite Hp. apply settingsRecord_over_defaults.
Qed.

Lemma getDarkMode_saveSettings (JSON_stringify : jsval → string)
    (ls : LocalStorage) (settings : gmap string jsval) :
  StorageService.getDarkMode
    (StorageService.saveSettings JSON_stringify ls settings)
  = StorageService.getDarkMode ls.
Proof.
  unfold StorageService.getDarkMode, StorageService.saveSettings, setItem,
    getItem.
  destruct (writable ls); [|done]. cbn.
  rewrite lookup_insert_ne by apply storage_keys_differ. done.
Qed.

(** X19. What [saveSettings] stored is what [loadSettings] returns, when the
    storage accepts both calls and [JSON.parse] inverts [JSON.stringify] on
    the record. *)
Theorem settings_roundtrip (JSON_parse : string → option jsval)
    (JSON_stringify : jsval → string) (c : t) :
  readable (storage c) = true → writable (storage c) = true →
  JSON_stringify (JObj (settingsRecord c)) ≠ "" →
  JSON_parse (JSON_stringify (JObj (settingsRecord c)))
  = Some (JObj (settingsRecord c)) →
  StorageService.loadSettings JSON_parse
    (storage (saveSettings JSON_stringify c))
  = settingsRecord c.
Proof. apply loadSettings_saveSettings. Qed.

Lemma settings_roundtrip_witness :
  let c := component 50 30 5 3 round true in
  let parse := constParse (settingsRecord c) in
  readable (storage c) = true ∧ writable (storage c) = true
  ∧ constStringify (JObj (settingsRecord c)) ≠ ""
  ∧ parse (constStringify (JObj (settingsRecord c)))
    = Some (JObj (settingsRecord c))
  ∧ StorageService.loadSettings parse (storage (saveSettings constStringify c))
    = settingsRecord c.
Proof.
  intros c parse.
  assert (H3 : constStringify (JObj (settingsRecord c)) ≠ "") by discriminate.
  assert (H4 : parse (constStringify (JObj (settingsRecord c)))
               = Some (JObj (settingsRecord c))) by reflexivity.
  split; [reflexivity|]. split; [reflexivity|]. split; [exact H3|].
  split; [exact H4|].
  exact (settings_roundtrip parse constStringify c eq_refl eq_refl H3 H4).
Defined.

(** X20. The two entries of the storage do not disturb each other. *)
Theorem storage_entries_independent (JSON_parse : string → option jsval)
    (JSON_stringify : jsval → string) (ls : LocalStorage)
    (settings : gmap string jsval) (isDarkMode : bool) :
  StorageService.getDarkMode
    (StorageService.saveSettings JSON_stringify ls settings)
  = StorageService.getDarkMode ls
  ∧ StorageService.loadSettings JSON_parse
      (StorageService.setDarkMode ls isDarkMode)
    = StorageService.loadSettings JSON_parse ls.
Proof.
  unfold StorageService.getDarkMode, StorageService.saveSettings,
    StorageService.loadSettings, StorageService.setDarkMode, setItem, getItem.
  split.
  - destruct (writable ls); [|done]. cbn.
    rewrite lookup_insert_ne by apply storage_keys_differ. done.
  - destruct (writable ls); [|done]. cbn.
    rewrite lookup_insert_ne by (symmetry; apply storage_keys_differ). done.
Qed.

(** X21. [clearStorage] on an accessible storage removes both entries and no
    other; afterwards the settings are the defaults and dark mode is off.  A
    disabled storage stays as it is. *)
Theorem clearStorage_resets (JSON_parse : string → option jsval)
    (ls : LocalStorage) :
  (readable ls = true →
   StorageService.loadSettings JSON_parse (StorageService.clearStorage ls)
   = StorageService.DEFAULT_SETTINGS
   ∧ StorageService.getDarkMode (StorageService.clearStorage ls) = false
   ∧ ∀ key : string,
       key ≠ StorageService.SETTINGS_KEY →
       key ≠ StorageService.DARK_MODE_KEY →
       items (StorageService.clearStorage ls) !! key = items ls !! key)
  ∧ (readable ls = false → StorageService.clearStorage ls = ls).
Proof.
  unfold StorageService.clearStorage, removeItem. split.
  - destruct ls as [its r w]. cbn [readable]. intros ->.
    unfold StorageService.loadSettings, StorageService.getDarkMode, getItem.
    cbn [readable items writable].
    rewrite lookup_delete_ne by (symmetry; apply storage_keys_differ).
    rewrite !lookup_delete_eq. split; [|split].
    + unfold spread2. apply (left_id_L ∅ (∪)).
    + reflexivity.
    + intros key H1 H2. by rewrite !lookup_delete_ne.
  - by intros ->.
Qed.

Lemma clearStorage_resets_witness :
  let ls := storageWith storedText in
  readable ls = true
  ∧ StorageService.loadSettings sampleParse ls !! "spacing"
    = Some (JNum (Fin 5))
  ∧ StorageService.loadSettings sampleParse (StorageService.clearStorage ls)
    = StorageService.DEFAULT_SETTINGS.
Proof.
  intros ls. split; [reflexivity|]. split; [reflexivity|].
  exact (proj1 (proj1 (clearStorage_resets sampleParse ls) eq_refl)).
Defined.

(** X22. Every failure of reading ends in exactly the defaults: a disabled
    storage, no entry, an empty entry, a text [JSON.parse] rejects, and a
    text that parses to [null], a boolean or a number. *)
Theorem loadSettings_fallback (JSON_parse : string → option jsval)
    (ls : LocalStorage) :
  (readable ls = false ∨ items ls !! StorageService.SETTINGS_KEY = None
   ∨ items ls !! StorageService.SETTINGS_KEY = Some ""
   ∨ (∃ stored, items ls !! StorageService.SETTINGS_KEY = Some stored
                ∧ (JSON_parse stored = None
                   ∨ JSON_parse stored = Some JNull
                   ∨ (∃ b, JSON_parse stored = Some (JBool b))
                   ∨ (∃ n, JSON_parse stored = Some (JNum n))))) →
  StorageService.loadSettings JSON_parse ls = StorageService.DEFAULT_SETTINGS.
Proof.
  assert (Hd : spread2 StorageService.DEFAULT_SETTINGS ∅
               = StorageService.DEFAULT_SETTINGS).
  { unfold spread2. apply (left_id_L ∅ (∪)). }
  unfold StorageService.loadSettings, getItem.
  intros [Hr|[Hn|[He|(stored & Hs & Hp)]]].
  - by rewrite Hr.
  - destruct (readable ls); [|done]. by rewrite Hn.
  - destruct (readable ls); [|done]. by rewrite He.
  - destruct (readable ls); [|done]. rewrite Hs.
    destruct (bool_decide (stored = "")); [done|].
    destruct Hp as [->|[->|[[b ->]|[n ->]]]]; done.
Qed.

Lemma loadSettings_fallback_witness :
  items (storageWith "not json") !! StorageService.SETTINGS_KEY
  = Some "not json"
  ∧ sampleParse "not json" = None
  ∧ StorageService.loadSettings sampleParse (storageWith "not json")
    = StorageService.DEFAULT_SETTINGS.
Proof.
  assert (H1 : items (storageWith "not json") !! StorageService.SETTINGS_KEY
               = Some "not json") by reflexivity.
  assert (H2 : sampleParse "not json" = None) by reflexivity.
  split; [exact H1|]. split; [exact H2|].
  apply loadSettings_fallback. right. right. right.
  exists "not json". split; [exact H1|]. left. exact H2.
Defined.

(** ** What [calculateGrid] reads and what it leaves alone *)

Section GridFrame.

Variable show : num → string.

(** [calculateGrid] assigns to the error fields, the counts, the offsets and
    the placeholders only. *)
Lemma calculateGrid_frame (c : t) :
  let r := final (calculateGrid show c) in
  storage r = storage c ∧ isDarkMode r = isDarkMode c
  ∧ selectedPaperSize r = selectedPaperSize c
  ∧ selectedPaperSizeIndex r = selectedPaperSizeIndex c
  ∧ pictureWidth r = pictureWidth c ∧ pictureHeight r = pictureHeight c
  ∧ placeholderShape r = placeholderShape c
  ∧ margins r = margins c ∧ spacing r = spacing c
  ∧ allowWhitespace r = allowWhitespace c
  ∧ showCropMarks r = showCropMarks c.
Proof.
  rewrite calculateGrid_unfold. cbn zeta.
  destruct (_ >? _)%num; [by repeat split|].
  destruct (_ >? _)%num; [by repeat split|].
  destruct (_ || _); [by repeat split|].
  unfold placeGrid. cbn zeta. destruct (Array_indices _); by repeat split.
Qed.

Lemma calculateGrid_settingsRecord (c : t) :
  settingsRecord (final (calculateGrid show c)) = settingsRecord c.
Proof.
  destruct (calculateGrid_frame c)
    as (_ & Hd & _ & Hi & Hw & Hh & Hs & Hm & Hsp & Ha & Hc).
  unfold settingsRecord. by rewrite Hd, Hi, Hw, Hh, Hs, Hm, Hsp, Ha, Hc.
Qed.

(** Two components with the same paper, picture size, shape, margin and
    spacing get the same layout, whatever their other fields hold. *)
Lemma calculateGrid_inputs (c1 c2 : t) :
  selectedPaperSize c1 = selectedPaperSize c2 →
  pictureWidth c1 = pictureWidth c2 → pictureHeight c1 = pictureHeight c2 →
  placeholderShape c1 = placeholderShape c2 →
  margins c1 = margins c2 → spacing c1 = spacing c2 →
  let r1 := calculateGrid show c1 in
  let r2 := calculateGrid show c2 in
  hasLayoutError (final r1) = hasLayoutError (final r2)
  ∧ errorMessage (final r1) = errorMessage (final r2)
  ∧ rows (final r1) = rows (final r2)
  ∧ columns (final r1) = columns (final r2)
  ∧ (∀ g1, r1 = Normal g1 →
       ∃ g2, r2 = Normal g2 ∧ placeholders g1 = placeholders g2
             ∧ (hasLayoutError g1 = false →
                offsetX g1 = offsetX g2 ∧ offsetY g1 = offsetY g2))
  ∧ (∀ g1, r1 = RangeError g1 → ∃ g2, r2 = RangeError g2).
Proof.
  destruct c1, c2. cbn [selectedPaperSize pictureWidth pictureHeight
                         placeholderShape margins spacing].
  intros -> -> -> -> -> ->. cbn zeta.
  rewrite !calculateGrid_unfold. cbn zeta.
  unfold minRequiredWidth, minRequiredHeight, paperWidthMm, paperHeightMm,
    pictureWidthMm, pictureHeightMm, marginMm, countFitting, availableWidth,
    availableHeight, spacingMm, paperWidthMm, paperHeightMm, pictureWidthMm,
    pictureHeightMm, marginMm.
  cbn [selectedPaperSize pictureWidth pictureHeight placeholderShape margins
       spacing setError setRows setColumns rows columns].
  destruct (_ >? _)%num.
  { repeat split; try done; intros g1 [= <-]; try done. eexists. by repeat split. }
  destruct (_ >? _)%num.
  { repeat split; try done; intros g1 [= <-]; try done. eexists. by repeat split. }
  destruct (_ || _).
  { repeat split; try done; intros g1 [= <-]; try done. eexists. by repeat split. }
  unfold placeGrid. cbn zeta.
  unfold totalGridWidth, totalGridHeight, availableWidth, availableHeight,
    paperWidthMm, paperHeightMm, pictureWidthMm, pictureHeightMm, marginMm,
    spacingMm.
  cbn [selectedPaperSize pictureWidth pictureHeight placeholderShape margins
       spacing setError setRows setColumns setOffsets rows columns].
  destruct (Array_indices _).
  - repeat split; try done; intros g1 [= <-]. eexists. by repeat split.
  - repeat split; try done; intros g1 [= <-]. by eexists.
Qed.

End GridFrame.

(** X23. [onParameterChange] stores the current settings whenever
    [calculateGrid] returns, a reported layout error included, and changes
    none of them; when [calculateGrid] throws, nothing is stored. *)
Theorem onParameterChange_persists (show : num → string)
    (JSON_stringify : jsval → string) (c : t) :
  let r := onParameterChange show JSON_stringify c in
  settingsRecord (final r) = settingsRecord c
  ∧ (∀ g, calculateGrid show c = Normal g →
       r = Normal (saveSettings JSON_stringify g)
       ∧ (writable (storage c) = true →
          items (storage (final r)) !! StorageService.SETTINGS_KEY
          = Some (JSON_stringify (JObj (settingsRecord c)))))
  ∧ (∀ g, calculateGrid show c = RangeError g →
       r = RangeError g ∧ storage (final r) = storage c).
Proof.
  cbn zeta. unfold onParameterChange.
  pose proof (calculateGrid_settingsRecord show c) as Hrec.
  destruct (calculateGrid_frame show c) as (Hst & _).
  destruct (calculateGrid show c) as [g|g]; cbn [final] in *.
  - split; [exact Hrec|]. split; [|by intros ? [=]].
    intros g' [= <-]. split; [done|]. intros Hw.
    unfold saveSettings, StorageService.saveSettings, setItem.
    rewrite Hst, Hw, Hrec. cbn. by rewrite lookup_insert_eq.
  - split; [exact Hrec|]. split; [by intros ? [=]|].
    intros g' [= <-]. by split.
Qed.

Lemma onParameterChange_persists_witness :
  let c := component 44 44 4 2 rectangular false in
  let g := final (calculateGrid showFraction c) in
  let r := onParameterChange showFraction constStringify c in
  calculateGrid showFraction c = Normal g
  ∧ writable (storage c) = true
  ∧ r = Normal (saveSettings constStringify g)
  ∧ items (storage (final r)) !! StorageService.SETTINGS_KEY
    = Some (constStringify (JObj (settingsRecord c))).
Proof.
  intros c g r.
  assert (H1 : calculateGrid showFraction c = Normal g) by reflexivity.
  assert (H2 : writable (storage c) = true) by reflexivity.
  split; [exact H1|]. split; [exact H2|].
  destruct (onParameterChange_persists showFraction constStringify c)
    as (_ & H & _).
  destruct (H g H1) as [Hr Hs]. split; [exact Hr|exact (Hs H2)].
Defined.

(** X24. Toggling dark mode twice gives back the first value; each toggle is
    written under the dark mode key, read back by [getDarkMode] when the
    storage accepts the calls, and leaves the stored settings entry and every
    setting as they were. *)
Theorem toggleDarkMode_persists (c : t) :
  isDarkMode (toggleDarkMode c) = negb (isDarkMode c)
  ∧ isDarkMode (toggleDarkMode (toggleDarkMode c)) = isDarkMode c
  ∧ (readable (storage c) = true → writable (storage c) = true →
     StorageService.getDarkMode (storage (toggleDarkMode c))
     = isDarkMode (toggleDarkMode c))
  ∧ items (storage (toggleDarkMode c)) !! StorageService.SETTINGS_KEY
    = items (storage c) !! StorageService.SETTINGS_KEY
  ∧ placeholders (toggleDarkMode c) = placeholders c
  ∧ settingsRecord (toggleDarkMode c)
    = settingsRecord (setIsDarkMode (negb (isDarkMode c)) c).
Proof.
  split; [reflexivity|]. split; [cbn; by destruct (isDarkMode c)|].
  split; [|split; [|split]].
  - intros Hr Hw. unfold toggleDarkMode. cbn [storage setStorage setIsDarkMode
                                               isDarkMode].
    by apply getDarkMode_setDarkMode.
  - unfold toggleDarkMode, StorageService.setDarkMode, setItem.
    cbn [storage setStorage setIsDarkMode isDarkMode].
    destruct (writable (storage c)); [|done]. cbn.
    by rewrite lookup_insert_ne by (symmetry; apply storage_keys_differ).
  - reflexivity.
  - reflexivity.
Qed.

Lemma toggleDarkMode_persists_witness :
  let c := component 44 44 4 2 rectangular false in
  readable (storage c) = true ∧ writable (storage c) = true
  ∧ isDarkMode (toggleDarkMode c) = true
  ∧ StorageService.getDarkMode (storage (toggleDarkMode c)) = true.
Proof.
  intros c.
  destruct (toggleDarkMode_persists c) as (H1 & _ & H3 & _).
  split; [reflexivity|]. split; [reflexivity|]. split; [exact H1|].
  exact (H3 eq_refl eq_refl).
Defined.


(** ** Start-up *)

Lemma settingsRecord_fields (c : t) :
  numberField (settingsRecord c) "selectedPaperSizeIndex"
  = Some (selectedPaperSizeIndex c)
  ∧ numberField (settingsRecord c) "pictureWidth" = Some (pictureWidth c)
  ∧ numberField (settingsRecord c) "pictureHeight" = Some (pictureHeight c)
  ∧ numberField (settingsRecord c) "margins" = Some (margins c)
  ∧ numberField (settingsRecord c) "spacing" = Some (spacing c)
  ∧ booleanField (settingsRecord c) "allowWhitespace"
    = Some (allowWhitespace c)
  ∧ booleanField (settingsRecord c) "showCropMarks" = Some (showCropMarks c)
  ∧ shapeField (settingsRecord c) "placeholderShape"
    = Some (placeholderShape c).
Proof.
  repeat split; try reflexivity.
  unfold shapeField, settingsRecord. by destruct (placeholderShape c).
Qed.

(** X25. What was saved is what the next start restores: the eight settings and
    the layout they give.  The dark mode comes from its own storage entry;
    the [isDarkMode] field of the stored record is not read. *)
Theorem ngOnInit_restores_saved (show : num → string)
    (JSON_parse : string → option jsval) (JSON_stringify : jsval → string)
    (c c0 : t) :
  readable (storage c) = true → writable (storage c) = true →
  JSON_stringify (JObj (settingsRecord c)) ≠ "" →
  JSON_parse (JSON_stringify (JObj (settingsRecord c)))
  = Some (JObj (settingsRecord c)) →
  paperSizeAt (selectedPaperSizeIndex c) = Some (selectedPaperSize c) →
  storage c0 = storage (saveSettings JSON_stringify c) →
  ∃ r : completion t,
    ngOnInit show JSON_parse c0 = Started r
    ∧ selectedPaperSizeIndex (final r) = selectedPaperSizeIndex c
    ∧ selectedPaperSize (final r) = selectedPaperSize c
    ∧ pictureWidth (final r) = pictureWidth c
    ∧ pictureHeight (final r) = pictureHeight c
    ∧ placeholderShape (final r) = placeholderShape c
    ∧ margins (final r) = margins c ∧ spacing (final r) = spacing c
    ∧ allowWhitespace (final r) = allowWhitespace c
    ∧ showCropMarks (final r) = showCropMarks c
    ∧ isDarkMode (final r) = StorageService.getDarkMode (storage c)
    ∧ storage (final r) = storage c0
    ∧ hasLayoutError (final r) = hasLayoutError (final (calculateGrid show c))
    ∧ rows (final r) = rows (final (calculateGrid show c))
    ∧ columns (final r) = columns (final (calculateGrid show c))
    ∧ (∀ g, calculateGrid show c = Normal g →
         r = Normal (final r) ∧ placeholders (final r) = placeholders g).
Proof.
  intros Hr Hw Hne Hp Hpaper Hst.
  unfold ngOnInit. cbn zeta. rewrite Hst.
  rewrite (loadSettings_saveSettings JSON_parse JSON_stringify c Hr Hw Hne Hp).
  destruct (settingsRecord_fields c)
    as (-> & -> & -> & -> & -> & -> & -> & ->).
  rewrite Hpaper.
  unfold saveSettings at 1. cbn [storage setStorage].
  rewrite getDarkMode_saveSettings.
  match goal with
  | |- context [calculateGrid show ?c1] => set (c1' := c1)
  end.
  destruct (calculateGrid_frame show c1')
    as (F1 & F2 & F3 & F4 & F5 & F6 & F7 & F8 & F9 & F10 & F11).
  destruct (calculateGrid_inputs show c1' c eq_refl eq_refl eq_refl eq_refl
              eq_refl eq_refl) as (I1 & I2 & I3 & I4 & I5 & I6).
  destruct (calculateGrid show c1') as [g1|g1] eqn:Hg1; eexists;
    (split; [reflexivity|]); cbn [final updatePrintStyles] in *;
    (split; [exact F4|]); (split; [exact F3|]); (split; [exact F5|]);
    (split; [exact F6|]); (split; [exact F7|]); (split; [exact F8|]);
    (split; [exact F9|]); (split; [exact F10|]); (split; [exact F11|]);
    (split; [exact F2|]); (split; [exact F1|]); (split; [exact I1|]);
    (split; [exact I3|]); (split; [exact I4|]).
  - intros g Hg. split; [done|].
    destruct (I5 g1 eq_refl) as (g2 & Hg2 & Hpl & _).
    unfold updatePrintStyles. congruence.
  - intros g Hg. destruct (I6 g1 eq_refl) as (g2 & Hg2). congruence.
Qed.

Lemma ngOnInit_restores_saved_witness :
  let c := component 50 30 5 3 round true in
  let parse := constParse (settingsRecord c) in
  let c0 :=
    setStorage (storage (saveSettings constStringify c))
      (component 44 44 4 2 rectangular false) in
  readable (storage c) = true ∧ writable (storage c) = true
  ∧ constStringify (JObj (settingsRecord c)) ≠ ""
  ∧ parse (constStringify (JObj (settingsRecord c)))
    = Some (JObj (settingsRecord c))
  ∧ paperSizeAt (selectedPaperSizeIndex c) = Some (selectedPaperSize c)
  ∧ storage c0 = storage (saveSettings constStringify c)
  ∧ ∃ r : completion t,
      ngOnInit showFraction parse c0 = Started r
      ∧ pictureWidth (final r) = pictureWidth c
      ∧ placeholderShape (final r) = placeholderShape c.
Proof.
  intros c parse c0.
  assert (H3 : constStringify (JObj (settingsRecord c)) ≠ "") by discriminate.
  assert (H4 : parse (constStringify (JObj (settingsRecord c)))
               = Some (JObj (settingsRecord c))) by reflexivity.
  assert (H5 : paperSizeAt (selectedPaperSizeIndex c)
               = Some (selectedPaperSize c)) by reflexivity.
  split; [reflexivity|]. split; [reflexivity|]. split; [exact H3|].
  split; [exact H4|]. split; [exact H5|]. split; [reflexivity|].
  destruct (ngOnInit_restores_saved showFraction parse constStringify c c0
              eq_refl eq_refl H3 H4 H5 eq_refl)
    as (r & Hr & _ & _ & Hpw & _ & Hsh & _).
  exists r. split; [exact Hr|]. split; [exact Hpw|exact Hsh].
Defined.

Section PaperIndex.

Local Open Scope num_scope.

Lemma paperSizeAt_None (index : num) :
  paperSizeAt index = None ↔ ¬ validPaperIndex index.
Proof.
  unfold validPaperIndex, paperSizeAt.
  destruct index as [q| | |]; cbn [same]; [|tauto..].
  destruct (Qeq_bool (inject_Z (Qfloor q)) q) eqn:Hint; cbn [andb].
  - apply Qeq_bool_iff in Hint.
    destruct (Qle_bool 0 q) eqn:H0.
    + apply Qle_bool_iff in H0.
      assert (0 ≤ Qfloor q)%Z as Hz.
      { change 0%Z with (Qfloor 0). by apply Qfloor_resp_le. }
      assert (Hq : ∀ z : Z, (q == inject_Z z)%Q ↔ Qfloor q = z).
      { intros z. split.
        - intros H. rewrite (Qfloor_comp _ _ H). apply Qfloor_Z.
        - intros <-. by symmetry. }
      change 0%Q with (inject_Z 0). change 1%Q with (inject_Z 1).
      change 2%Q with (inject_Z 2). change 3%Q with (inject_Z 3).
      rewrite !Hq.
      destruct (Z.to_nat (Qfloor q)) as [|[|[|[|n]]]] eqn:Hn; simpl;
        split; try done; try lia; intros H; exfalso; apply H; lia.
    + apply (le_Fin_false 0 q) in H0. split; [|done]. intros _.
      intros [H|[H|[H|H]]]; lra.
  - apply Qeq_bool_false in Hint. split; [|done]. intros _.
    intros [H|[H|[H|H]]]; apply Hint; rewrite (Qfloor_comp _ _ H);
      symmetry; exact H.
Qed.

End PaperIndex.

(** X26. When the stored settings have their declared types, start-up throws a
    [TypeError] exactly when the stored paper index is none of 0, 1, 2, 3:
    [paperSizes[index]] is then [undefined] and [calculateGrid] reads its
    width. *)
Theorem ngOnInit_paper_index (show : num → string)
    (JSON_parse : string → option jsval) (c0 : t) (index : num) :
  let settings := StorageService.loadSettings JSON_parse (storage c0) in
  numberField settings "selectedPaperSizeIndex" = Some index →
  is_Some (numberField settings "pictureWidth") →
  is_Some (numberField settings "pictureHeight") →
  is_Some (numberField settings "margins") →
  is_Some (numberField settings "spacing") →
  is_Some (booleanField settings "allowWhitespace") →
  is_Some (booleanField settings "showCropMarks") →
  is_Some (shapeField settings "placeholderShape") →
  (ngOnInit show JSON_parse c0 = TypeError ↔ ¬ validPaperIndex index).
Proof.
  cbn zeta. unfold ngOnInit. cbn zeta.
  intros -> [? ->] [? ->] [? ->] [? ->] [? ->] [? ->] [? ->].
  rewrite <- paperSizeAt_None.
  destruct (paperSizeAt index) as [paper|]; [|done].
  split; [|done]. by destruct (calculateGrid _ _).
Qed.

Lemma ngOnInit_paper_index_witness :
  let c0 :=
    setStorage (storageWith indexText) (component 44 44 4 2 rectangular false) in
  let settings := StorageService.loadSettings indexParse (storage c0) in
  numberField settings "selectedPaperSizeIndex" = Some (Fin 4)
  ∧ is_Some (numberField settings "pictureWidth")
  ∧ is_Some (shapeField settings "placeholderShape")
  ∧ ¬ validPaperIndex (Fin 4)
  ∧ ngOnInit showFraction indexParse c0 = TypeError.
Proof.
  intros c0 settings.
  assert (H1 : numberField settings "selectedPaperSizeIndex" = Some (Fin 4))
    by reflexivity.
  assert (H2 : is_Some (numberField settings "pictureWidth")) by by eexists.
  assert (H8 : is_Some (shapeField settings "placeholderShape")) by by eexists.
  assert (Hbad : ¬ validPaperIndex (Fin 4)).
  { intros [H|[H|[H|H]]]; discriminate H. }
  split; [exact H1|]. split; [exact H2|]. split; [exact H8|].
  split; [exact Hbad|].
  apply (ngOnInit_paper_index showFraction indexParse c0 (Fin 4) H1 H2);
    try (by eexists); exact Hbad.
Defined.
